(** * PiCom intercom bridge: session wrapper, talk controller, status aggregator

    A shallow embedding of [PiComService] and [MumbleClientWrapper].
    Timestamps are milliseconds ([Date] values, read through [getTime]) and are
    integers; channel identifiers and counters are integers as well.  The Node
    event loop is modelled by explicit state passing: every handler is a
    function from the object's state to a completion and the state it leaves
    behind, and a pending [setTimeout] callback is a counter in the state. *)

From Stdlib Require Import ZArith List String Bool Lia.
Import ListNotations.

Local Open Scope string_scope.
Local Open Scope list_scope.
Local Open Scope Z_scope.

(** ** JavaScript values and control flow *)

Module JS.

(** Modelled from the spec: the class [ErrorWithStatusCode]
    (obj/ErrorWithStatusCode) is required by both services but only its
    construction sites are at hand; it is the record of the fields it is
    constructed with (a 404-coded "not found", a 400-coded invalid state,
    a 500-coded connection error). *)
Record ErrorWithStatusCode := {
  code : Z;
  message : string;
  innerError : option string
}.

(** What a handler can throw, or a promise can be rejected with. *)
Inductive error :=
| TypeError (what : string)              (* property access on undefined *)
| StatusError (e : ErrorWithStatusCode)
| PlainObject (msg : string)             (* the object literal {message} *)
| LibraryError (what : string).          (* raised by the mumble library *)

Inductive completion (A : Type) :=
| Normal (a : A)
| Throw (e : error).
Arguments Normal {A} a.
Arguments Throw {A} e.

(** A method body: it may mutate the object and it may throw; what was
    mutated before the throw stays mutated. *)
Definition M (S A : Type) : Type := S -> completion A * S.

Definition ret {S A} (a : A) : M S A := fun s => (Normal a, s).
Definition throw {S A} (e : error) : M S A := fun s => (Throw e, s).
Definition bind {S A B} (m : M S A) (f : A -> M S B) : M S B :=
  fun s => match m s with
           | (Normal a, s') => f a s'
           | (Throw e, s') => (Throw e, s')
           end.
Definition gets {S A} (f : S -> A) : M S A := fun s => (Normal (f s), s).
Definition modify {S} (f : S -> S) : M S unit := fun s => (Normal tt, f s).
Definition when {S} (b : bool) (m : M S unit) : M S unit :=
  if b then m else ret tt.

(** The state a method leaves behind, and how it completed. *)
Definition exec {S A} (m : M S A) (s : S) : S := snd (m s).
Definition outcome {S A} (m : M S A) (s : S) : completion A := fst (m s).

(** A promise settles once; later [resolve]/[reject] calls are ignored. *)
Inductive Promise (A : Type) :=
| Pending
| Resolved (a : A)
| Rejected (e : error).
Arguments Pending {A}.
Arguments Resolved {A} a.
Arguments Rejected {A} e.

Definition resolve {A} (a : A) (p : Promise A) : Promise A :=
  match p with Pending => Resolved a | _ => p end.
Definition reject {A} (e : error) (p : Promise A) : Promise A :=
  match p with Pending => Rejected e | _ => p end.

(** Numbers that may be [NaN]: [a[i]] is [undefined] out of range, and
    arithmetic on [undefined] gives [NaN], which compares false. *)
Definition num := option Z.
Definition index (a : list Z) (i : nat) : num := nth_error a i.
Definition sub (x y : num) : num :=
  match x, y with
  | Some a, Some b => Some (a - b)
  | _, _ => None
  end.
Definition le (x : num) (y : Z) : bool :=
  match x with
  | Some a => a <=? y
  | None => false
  end.

(** [x++] on a counter: a double counts exactly up to 2^53 and stays there. *)
Definition MAX_EXACT : Z := 9007199254740992.
Definition incr (x : Z) : Z := if x <? MAX_EXACT then x + 1 else x.

(** [a.unshift(x); a = a.slice(0, 2)] *)
Definition unshift_slice2 (x : Z) (a : list Z) : list Z := firstn 2 (x :: a).

End JS.
Import JS.

Notation "x <- c1 ;; c2" := (bind c1 (fun x => c2))
  (at level 61, c1 at next level, right associativity).
Notation "c1 ;;; c2" := (bind c1 (fun _ => c2))
  (at level 61, right associativity).

(** ** MumbleClientWrapper *)

Module MumbleClientWrapper.

Definition RETRY_LIMIT : Z := 1000.

(** The library's channel and user objects, as far as the wrapper reads
    them. *)
Record Channel := { id : Z; name : string }.
Record User := { channel : option Channel }.

(** Handlers that [connect] registers on the connection's 'error' event. *)
Inductive ErrorListener := connErrCb | onErrorListener.

Definition ErrorListener_eqb (a b : ErrorListener) : bool :=
  match a, b with
  | connErrCb, connErrCb | onErrorListener, onErrorListener => true
  | _, _ => false
  end.

(** The library's connection object: what the wrapper reads from it, and
    the listeners the wrapper has registered on it. *)
Record Connection := {
  user : option User;
  channels : list Channel;
  errorListeners : list ErrorListener;
  initializedListeners : nat;
  voiceListeners : nat;
  messageListeners : nat
}.

(** Calls the wrapper makes on the library. *)
Inductive LibCall :=
| CallConnect (server : string)
| CallAuthenticate (username : string)
| CallSendMessage (channelId : Z) (text : string)
| CallDisconnect.

(** Events the wrapper emits to its own subscribers. *)
Inductive Emitted :=
| EmitError (e : ErrorWithStatusCode)
| EmitMessage (text : string)
| EmitVoice (len : Z).

Record Config := {
  server : string;
  port : Z;
  username : string;
  key : option string;
  cert : option string
}.

Record t := {
  _connected : bool;
  _connectCalled : bool;
  config : Config;
  connection : option Connection;       (* undefined until the transport callback *)
  connectPromise : Promise unit;        (* the promise of the connect call *)
  calls : list LibCall;                 (* oldest first *)
  emitted : list Emitted;               (* oldest first *)
  errorSubscribers : nat                (* listeners on the wrapper's own 'error' *)
}.

Definition set_connected (b : bool) (w : t) : t :=
  {| _connected := b; _connectCalled := _connectCalled w; config := config w;
     connection := connection w; connectPromise := connectPromise w;
     calls := calls w; emitted := emitted w;
     errorSubscribers := errorSubscribers w |}.
Definition set_connectCalled (b : bool) (w : t) : t :=
  {| _connected := _connected w; _connectCalled := b; config := config w;
     connection := connection w; connectPromise := connectPromise w;
     calls := calls w; emitted := emitted w;
     errorSubscribers := errorSubscribers w |}.
Definition set_connection (c : option Connection) (w : t) : t :=
  {| _connected := _connected w; _connectCalled := _connectCalled w;
     config := config w; connection := c;
     connectPromise := connectPromise w;
     calls := calls w; emitted := emitted w;
     errorSubscribers := errorSubscribers w |}.
Definition set_connectPromise (p : Promise unit) (w : t) : t :=
  {| _connected := _connected w; _connectCalled := _connectCalled w;
     config := config w; connection := connection w; connectPromise := p;
     calls := calls w; emitted := emitted w;
     errorSubscribers := errorSubscribers w |}.
Definition call (c : LibCall) (w : t) : t :=
  {| _connected := _connected w; _connectCalled := _connectCalled w;
     config := config w; connection := connection w;
     connectPromise := connectPromise w;
     calls := calls w ++ [c]; emitted := emitted w;
     errorSubscribers := errorSubscribers w |}.
Definition record_emit (e : Emitted) (w : t) : t :=
  {| _connected := _connected w; _connectCalled := _connectCalled w;
     config := config w; connection := connection w;
     connectPromise := connectPromise w;
     calls := calls w; emitted := emitted w ++ [e];
     errorSubscribers := errorSubscribers w |}.
Definition on_error (w : t) : t :=
  {| _connected := _connected w; _connectCalled := _connectCalled w;
     config := config w; connection := connection w;
     connectPromise := connectPromise w;
     calls := calls w; emitted := emitted w;
     errorSubscribers := S (errorSubscribers w) |}.

Definition constructor (cfg : Config) : t :=
  {| _connected := false; _connectCalled := false; config := cfg;
     connection := None; connectPromise := Pending;
     calls := []; emitted := []; errorSubscribers := 0 |}.

(** [this.connection.user.channel]: a [TypeError] when the connection or
    its user is undefined. *)
Definition currentChannel (w : t) : completion (option Channel) :=
  match connection w with
  | None => Throw (TypeError "Cannot read property 'user' of undefined")
  | Some c =>
      match user c with
      | None => Throw (TypeError "Cannot read property 'channel' of undefined")
      | Some u => Normal (channel u)
      end
  end.

(** Modelled from the spec: [MumbleChanelInfo] (domain/MumbleChannelInfo) is
    not at hand; the snapshot carries the channel reference (id, name). *)
Record Status := {
  connected : bool;
  connectionAttempted : bool;
  statusChannel : option Channel
}.

(** [get status()] *)
Definition status : M t Status := fun w =>
  if _connected w then
    match currentChannel w with
    | Normal ch => (Normal {| connected := _connected w;
                              connectionAttempted := _connectCalled w;
                              statusChannel := ch |}, w)
    | Throw e => (Throw e, w)
    end
  else (Normal {| connected := _connected w;
                  connectionAttempted := _connectCalled w;
                  statusChannel := None |}, w).

(** [emit('error', e)] on the wrapper itself: Node's emitter throws the
    error when nobody listens for 'error'. *)
Definition emit_error (e : ErrorWithStatusCode) : M t unit := fun w =>
  let w' := record_emit (EmitError e) w in
  match errorSubscribers w with
  | O => (Throw (StatusError e), w')
  | S _ => (Normal tt, w')
  end.

(** [_onError(error)] *)
Definition _onError (err : string) : M t unit :=
  emit_error {| code := 500;
                message := "Mumble connection has terminated due to an error. Re-connect needed";
                innerError := Some err |}.

(** *** connect *)

Definition add_error_listener (l : ErrorListener) (c : Connection) : Connection :=
  {| user := user c; channels := channels c;
     errorListeners := errorListeners c ++ [l];
     initializedListeners := initializedListeners c;
     voiceListeners := voiceListeners c;
     messageListeners := messageListeners c |}.

Fixpoint remove_first (l : ErrorListener) (ls : list ErrorListener) :=
  match ls with
  | [] => []
  | x :: ls' => if ErrorListener_eqb l x then ls' else x :: remove_first l ls'
  end.

(** [removeListener] drops the most recently added instance. *)
Definition remove_error_listener (l : ErrorListener) (c : Connection) : Connection :=
  {| user := user c; channels := channels c;
     errorListeners := rev (remove_first l (rev (errorListeners c)));
     initializedListeners := initializedListeners c;
     voiceListeners := voiceListeners c;
     messageListeners := messageListeners c |}.

Definition add_initialized_listener (c : Connection) : Connection :=
  {| user := user c; channels := channels c;
     errorListeners := errorListeners c;
     initializedListeners := S (initializedListeners c);
     voiceListeners := voiceListeners c;
     messageListeners := messageListeners c |}.

Definition add_voice_message_listeners (c : Connection) : Connection :=
  {| user := user c; channels := channels c;
     errorListeners := errorListeners c;
     initializedListeners := initializedListeners c;
     voiceListeners := S (voiceListeners c);
     messageListeners := S (messageListeners c) |}.

Definition on_connection (f : Connection -> Connection) (w : t) : t :=
  set_connection (option_map f (connection w)) w.

Definition connectionError500 (inner : option string) : error :=
  StatusError {| code := 500; message := "Mumble Connection Error";
                 innerError := inner |}.

(** [connect()], up to the call into the library: the flag is raised
    before anything else happens. *)
Definition connect : M t unit :=
  modify (set_connectCalled true) ;;;
  modify (set_connectPromise Pending) ;;;
  w <- gets config ;;
  modify (call (CallConnect (server w))).

(** The callback handed to [mumble.connect].  On a transport error the
    promise is rejected and no connection is stored. *)
Definition connectCallback (error : option string) (conn : Connection) : M t unit :=
  match error with
  | Some e =>
      modify (fun w => set_connectPromise
                         (reject (connectionError500 (Some e)) (connectPromise w)) w)
  | None =>
      modify (set_connection (Some conn)) ;;;
      cfg <- gets config ;;
      modify (call (CallAuthenticate (username cfg))) ;;;
      modify (on_connection (add_error_listener connErrCb)) ;;;
      modify (on_connection add_initialized_listener)
  end.

(** The 'initialized' handler registered by [connectCallback]. *)
Definition initializedHandler : M t unit :=
  modify (on_connection (remove_error_listener connErrCb)) ;;;
  modify (on_connection add_voice_message_listeners) ;;;
  modify (on_connection (add_error_listener onErrorListener)) ;;;
  modify (set_connected true) ;;;
  modify (fun w => set_connectPromise (resolve tt (connectPromise w)) w).

Fixpoint repeatM {S} (n : nat) (m : M S unit) : M S unit :=
  match n with
  | O => ret tt
  | S n' => m ;;; repeatM n' m
  end.

(** The library fires 'initialized' on the stored connection. *)
Definition connectionInitialized : M t unit := fun w =>
  match connection w with
  | None => (Normal tt, w)
  | Some c => repeatM (initializedListeners c) initializedHandler w
  end.

Definition runErrorListener (err : string) (l : ErrorListener) : M t unit :=
  match l with
  | connErrCb =>
      (* [innerError: error] names the transport callback's (null) error *)
      modify (fun w => set_connectPromise
                         (reject (connectionError500 None) (connectPromise w)) w)
  | onErrorListener => _onError err
  end.

Fixpoint forEachM {S A} (f : A -> M S unit) (l : list A) : M S unit :=
  match l with
  | [] => ret tt
  | x :: l' => f x ;;; forEachM f l'
  end.

(** The library fires 'error' on the stored connection: the listeners
    registered at that moment run in order; with none, the emitter throws. *)
Definition connectionError (err : string) : M t unit := fun w =>
  match connection w with
  | None => (Normal tt, w)
  | Some c =>
      match errorListeners c with
      | [] => (Throw (LibraryError err), w)
      | ls => forEachM (runErrorListener err) ls w
      end
  end.

(** [disconnect()]; an exception in the async body rejects its promise. *)
Definition disconnect : M t unit :=
  modify (set_connected false) ;;;
  c <- gets connection ;;
  match c with
  | None => throw (TypeError "Cannot read property 'disconnect' of undefined")
  | Some _ => modify (call CallDisconnect)
  end.

(** [sendMessageToCurrentChannel(message)] *)
Definition sendMessageToCurrentChannel (message : string) : M t unit := fun w =>
  match currentChannel w with
  | Throw e => (Throw e, w)
  | Normal None => (Throw (TypeError "Cannot read property 'name' of undefined"), w)
  | Normal (Some currentCh) =>
      (Normal tt, call (CallSendMessage (id currentCh) message) w)
  end.

(** The library learns from the server that the user now sits in [ch]. *)
Definition userMoved (ch : Channel) (c : Connection) : Connection :=
  {| user := Some {| channel := Some ch |}; channels := channels c;
     errorListeners := errorListeners c;
     initializedListeners := initializedListeners c;
     voiceListeners := voiceListeners c;
     messageListeners := messageListeners c |}.

(** *** Joining a channel *)

(** The state of one [_channelJoinerWithChannelFetchFunc] call. *)
Record Join := {
  promise : Promise Channel;
  retryCount : Z;
  timers : nat;            (* [whileLoop] callbacks queued by [setTimeout] *)
  joinRequests : list Z;   (* [channel.join()] calls, by channel id *)
  polls : nat;             (* evaluations of the loop condition *)
  uncaught : list error    (* exceptions escaping a timer callback *)
}.

Definition newJoin : Join :=
  {| promise := Pending; retryCount := 0; timers := 0; joinRequests := [];
     polls := 0; uncaught := [] |}.

Definition settle (f : Promise Channel -> Promise Channel) (j : Join) : Join :=
  {| promise := f (promise j); retryCount := retryCount j; timers := timers j;
     joinRequests := joinRequests j; polls := polls j; uncaught := uncaught j |}.
Definition incr_retryCount (j : Join) : Join :=
  {| promise := promise j; retryCount := incr (retryCount j); timers := timers j;
     joinRequests := joinRequests j; polls := polls j; uncaught := uncaught j |}.
Definition set_timers (n : nat) (j : Join) : Join :=
  {| promise := promise j; retryCount := retryCount j; timers := n;
     joinRequests := joinRequests j; polls := polls j; uncaught := uncaught j |}.
Definition setTimeout (j : Join) : Join := set_timers (S (timers j)) j.
Definition join_request (i : Z) (j : Join) : Join :=
  {| promise := promise j; retryCount := retryCount j; timers := timers j;
     joinRequests := joinRequests j ++ [i]; polls := polls j;
     uncaught := uncaught j |}.
Definition count_poll (j : Join) : Join :=
  {| promise := promise j; retryCount := retryCount j; timers := timers j;
     joinRequests := joinRequests j; polls := S (polls j);
     uncaught := uncaught j |}.
Definition add_uncaught (e : error) (j : Join) : Join :=
  {| promise := promise j; retryCount := retryCount j; timers := timers j;
     joinRequests := joinRequests j; polls := polls j;
     uncaught := uncaught j ++ [e] |}.

(** [this.connection.user.channel.id] *)
Definition currentChannelId (w : t) : completion Z :=
  match currentChannel w with
  | Throw e => Throw e
  | Normal None => Throw (TypeError "Cannot read property 'id' of undefined")
  | Normal (Some c) => Normal (id c)
  end.

Definition timeoutError : error := PlainObject "Max retry exceeded".
Definition notFoundError : error :=
  StatusError {| code := 404; message := "Channel does not exist";
                 innerError := None |}.

(** [whileLoop], run while the wrapper is in state [w]. *)
Definition whileLoop (channel : Channel) (w : t) : M Join unit :=
  modify incr_retryCount ;;;
  modify count_poll ;;;
  match currentChannelId w with
  | Throw e => throw e
  | Normal current =>
      if negb (id channel =? current) then
        n <- gets retryCount ;;
        when (n >? RETRY_LIMIT) (modify (settle (reject timeoutError))) ;;;
        modify setTimeout
      else
        modify (settle (resolve channel))
  end.

Definition try_catch {S} (body : M S unit) (handler : error -> M S unit) : M S unit :=
  fun s => match body s with
           | (Normal a, s') => (Normal a, s')
           | (Throw e, s') => handler e s'
           end.

(** The promise executor of [_channelJoinerWithChannelFetchFunc], run while
    the wrapper is in state [w]; it returns the state of the join once the
    synchronous part is over. *)
Definition _channelJoinerWithChannelFetchFunc
    (channelFetchFn : t -> completion (option Channel)) (w : t) : Join :=
  exec
    (try_catch
       (match channelFetchFn w with
        | Throw e => throw e
        | Normal None => modify (settle (reject notFoundError))
        | Normal (Some channel) =>
            modify (join_request (id channel)) ;;;
            whileLoop channel w
        end)
       (fun e => modify (settle (reject e))))
    newJoin.

(** [this.connection.channelByName(name)] and [channelById(id)] *)
Definition channelByName (n : string) (w : t) : completion (option Channel) :=
  match connection w with
  | None => Throw (TypeError "Cannot read property 'channelByName' of undefined")
  | Some c => Normal (find (fun ch => String.eqb (name ch) n) (channels c))
  end.
Definition channelById (i : Z) (w : t) : completion (option Channel) :=
  match connection w with
  | None => Throw (TypeError "Cannot read property 'channelById' of undefined")
  | Some c => Normal (find (fun ch => id ch =? i) (channels c))
  end.

Definition joinChannelByName (n : string) (w : t) : Join :=
  _channelJoinerWithChannelFetchFunc (channelByName n) w.
Definition joinChannelById (i : Z) (w : t) : Join :=
  _channelJoinerWithChannelFetchFunc (channelById i) w.

(** The event loop runs one queued [whileLoop] callback, the wrapper being
    in state [w] at that moment.  An exception is uncaught there. *)
Definition timerFires (channel : Channel) (w : t) (j : Join) : Join :=
  match timers j with
  | O => j
  | S n =>
      match whileLoop channel w (set_timers n j) with
      | (Normal _, j') => j'
      | (Throw e, j') => add_uncaught e j'
      end
  end.

(** Successive turns of the event loop; [ws] lists the wrapper's state at
    each turn. *)
Fixpoint eventLoop (channel : Channel) (ws : list t) (j : Join) : Join :=
  match ws with
  | [] => j
  | w :: ws' => eventLoop channel ws' (timerFires channel w j)
  end.

(** [_onMessage] and [_onVoice] pass the library's event on; an event other
    than 'error' may go unheard. *)
Definition _onMessage (text : string) : M t unit :=
  modify (record_emit (EmitMessage text)).
Definition _onVoice (len : Z) : M t unit :=
  modify (record_emit (EmitVoice len)).

(** *** The life of a wrapper *)

(** What can happen to a wrapper, one handler at a time: a method is called
    on it, or the library calls back. *)
Inductive Event :=
| EvConnect                                        (* [connect()] *)
| EvTransport (error : option string) (conn : Connection)
                                                   (* the [mumble.connect] callback *)
| EvInitialized                                    (* the connection's 'initialized' *)
| EvError (err : string)                           (* the connection's 'error' *)
| EvDisconnect                                     (* [disconnect()] *)
| EvSend (text : string)                           (* [sendMessageToCurrentChannel] *)
| EvUserMoved (ch : Channel)                       (* the server moved the user *)
| EvSubscribe.                                     (* somebody listens for 'error' *)

Definition step (e : Event) : M t unit :=
  match e with
  | EvConnect => connect
  | EvTransport error conn => connectCallback error conn
  | EvInitialized => connectionInitialized
  | EvError err => connectionError err
  | EvDisconnect => disconnect
  | EvSend text => sendMessageToCurrentChannel text
  | EvUserMoved ch => modify (on_connection (userMoved ch))
  | EvSubscribe => modify on_error
  end.

Definition play (es : list Event) (w : t) : t :=
  fold_left (fun w e => exec (step e) w) es w.

End MumbleClientWrapper.

(** ** PiComService *)

Module PiComService.

Module W := MumbleClientWrapper.

Inductive ButtonState := UP | DOWN.

Definition LATCH_TIME_MS : Z := 500.

(** [LATCH_TIME_MS * 1.5]; the product is a whole number. *)
Definition LATCH_GAP_MS : Z := LATCH_TIME_MS * 3 / 2.

Inductive AudioStatus := AUDIO_NOT_SETUP | AUDIO_SETUP_ERROR | AUDIO_CONFIGURED.

Inductive Severity := STATUS_NORMAL | STATUS_WARN | STATUS_ERROR.

Definition Severity_eqb (a b : Severity) : bool :=
  match a, b with
  | STATUS_NORMAL, STATUS_NORMAL | STATUS_WARN, STATUS_WARN
  | STATUS_ERROR, STATUS_ERROR => true
  | _, _ => false
  end.

Definition AudioStatus_eqb (a b : AudioStatus) : bool :=
  match a, b with
  | AUDIO_NOT_SETUP, AUDIO_NOT_SETUP | AUDIO_SETUP_ERROR, AUDIO_SETUP_ERROR
  | AUDIO_CONFIGURED, AUDIO_CONFIGURED => true
  | _, _ => false
  end.

(** The text of a severity constant, as the message templates print it. *)
Definition Severity_text (s : Severity) : string :=
  match s with
  | STATUS_NORMAL => "NORMAL"
  | STATUS_WARN => "WARNING"
  | STATUS_ERROR => "ERROR"
  end.

(** Modelled from the spec: [HardwareService] (service/HardwareService) is
    not at hand.  It exposes [setTalkLed(bool)], [setCallLed(bool)],
    [setErrorFlasher(bool)] and a [status.setupDone] flag; the record keeps
    the flag and the last value written to each output. *)
Record HardwareService := {
  setupDone : bool;
  talkLed : bool;
  callLed : bool;
  errorFlasher : bool
}.

(** The capture stream of the microphone once [start()] was called on it:
    [pause()] suspends it and [resume()] lets it run. *)
Inductive Mic := MicPaused | MicRunning.

Record State := {
  calling : bool;
  transmitting : bool;
  micLatch : bool
}.

Record t := {
  mumble : W.t;
  hardware : HardwareService;
  state : State;
  _txTimes : list Z;          (* key-down times, newest first *)
  _stopTxTimes : list Z;      (* key-up times, newest first *)
  _audioStatus : AudioStatus;
  mic : option Mic            (* undefined until the microphone is set up *)
}.

Definition set_mumble (w : W.t) (s : t) : t :=
  {| mumble := w; hardware := hardware s; state := state s;
     _txTimes := _txTimes s; _stopTxTimes := _stopTxTimes s;
     _audioStatus := _audioStatus s; mic := mic s |}.
Definition set_hardware (h : HardwareService) (s : t) : t :=
  {| mumble := mumble s; hardware := h; state := state s;
     _txTimes := _txTimes s; _stopTxTimes := _stopTxTimes s;
     _audioStatus := _audioStatus s; mic := mic s |}.
Definition set_state (st : State) (s : t) : t :=
  {| mumble := mumble s; hardware := hardware s; state := st;
     _txTimes := _txTimes s; _stopTxTimes := _stopTxTimes s;
     _audioStatus := _audioStatus s; mic := mic s |}.
Definition set_txTimes (l : list Z) (s : t) : t :=
  {| mumble := mumble s; hardware := hardware s; state := state s;
     _txTimes := l; _stopTxTimes := _stopTxTimes s;
     _audioStatus := _audioStatus s; mic := mic s |}.
Definition set_stopTxTimes (l : list Z) (s : t) : t :=
  {| mumble := mumble s; hardware := hardware s; state := state s;
     _txTimes := _txTimes s; _stopTxTimes := l;
     _audioStatus := _audioStatus s; mic := mic s |}.
Definition set_mic (m : option Mic) (s : t) : t :=
  {| mumble := mumble s; hardware := hardware s; state := state s;
     _txTimes := _txTimes s; _stopTxTimes := _stopTxTimes s;
     _audioStatus := _audioStatus s; mic := m |}.

Definition set_calling (b : bool) (s : t) : t :=
  set_state {| calling := b; transmitting := transmitting (state s);
               micLatch := micLatch (state s) |} s.
Definition set_transmitting (b : bool) (s : t) : t :=
  set_state {| calling := calling (state s); transmitting := b;
               micLatch := micLatch (state s) |} s.
Definition set_micLatch (b : bool) (s : t) : t :=
  set_state {| calling := calling (state s);
               transmitting := transmitting (state s); micLatch := b |} s.

Definition setTalkLed (b : bool) (s : t) : t :=
  set_hardware {| setupDone := setupDone (hardware s); talkLed := b;
                  callLed := callLed (hardware s);
                  errorFlasher := errorFlasher (hardware s) |} s.
Definition setCallLed (b : bool) (s : t) : t :=
  set_hardware {| setupDone := setupDone (hardware s);
                  talkLed := talkLed (hardware s); callLed := b;
                  errorFlasher := errorFlasher (hardware s) |} s.
Definition setErrorFlasher (b : bool) (s : t) : t :=
  set_hardware {| setupDone := setupDone (hardware s);
                  talkLed := talkLed (hardware s);
                  callLed := callLed (hardware s); errorFlasher := b |} s.

Definition constructor (mumbleConfig : W.Config) : t :=
  {| mumble := W.constructor mumbleConfig;
     hardware := {| setupDone := false; talkLed := false; callLed := false;
                    errorFlasher := false |};
     state := {| calling := false; transmitting := false; micLatch := false |};
     _txTimes := []; _stopTxTimes := [];
     _audioStatus := AUDIO_NOT_SETUP;
     mic := None |}.

(** A method of the wrapper called on [this.mumble]. *)
Definition on_mumble {A} (m : M W.t A) : M t A := fun s =>
  match m (mumble s) with
  | (c, w') => (c, set_mumble w' s)
  end.

(** [this.mic.resume()] and [this.mic.pause()] *)
Definition mic_resume : M t unit := fun s =>
  match mic s with
  | None => (Throw (TypeError "Cannot read property 'resume' of undefined"), s)
  | Some _ => (Normal tt, set_mic (Some MicRunning) s)
  end.
Definition mic_pause : M t unit := fun s =>
  match mic s with
  | None => (Throw (TypeError "Cannot read property 'pause' of undefined"), s)
  | Some _ => (Normal tt, set_mic (Some MicPaused) s)
  end.

(** *** Status aggregation *)

Record StatusMessage := { message : string; status : Severity }.

Record HealthReport := {
  overall : Severity;               (* the [status] field of the report *)
  messages : list StatusMessage
}.

Definition push (m : StatusMessage) (ms : list StatusMessage) := ms ++ [m].

Definition template (sev : Severity) (text : string) : StatusMessage :=
  {| message := (Severity_text sev ++ " - " ++ text)%string; status := sev |}.

(** [get _errorState()] *)
Definition _errorState : M t HealthReport :=
  let messages := [] in
  audio <- gets _audioStatus ;;
  let messages :=
    if AudioStatus_eqb audio AUDIO_NOT_SETUP
    then push (template STATUS_WARN "Audio Not Setup") messages
    else messages in
  let messages :=
    if AudioStatus_eqb audio AUDIO_SETUP_ERROR
    then push (template STATUS_ERROR "Audio Error") messages
    else messages in
  hw <- gets hardware ;;
  let messages :=
    if negb (setupDone hw)
    then push (template STATUS_WARN "Hardware Not Setup") messages
    else messages in
  st <- on_mumble W.status ;;
  messages <-
    (if negb (W.connected st) then
       st' <- on_mumble W.status ;;
       if W.connectionAttempted st'
       then ret (push (template STATUS_ERROR "Mumble Not Connected") messages)
       else ret (push (template STATUS_WARN "Mumble Connection Not Attempted")
                      messages)
     else ret messages) ;;
  let warnLevel :=
    (0 <? List.length (filter (fun m => Severity_eqb (status m) STATUS_WARN) messages))%nat in
  let errorLevel :=
    (0 <? List.length (filter (fun m => Severity_eqb (status m) STATUS_ERROR) messages))%nat in
  if errorLevel then ret {| overall := STATUS_ERROR; messages := messages |}
  else if warnLevel then ret {| overall := STATUS_WARN; messages := messages |}
  else ret {| overall := STATUS_NORMAL; messages := messages |}.

Record ServiceStatus := {
  piCom : State;
  mumbleStatus : W.Status;
  hardwareStatus : HardwareService;
  audio : AudioStatus;
  global : HealthReport
}.

(** [get status()] *)
Definition serviceStatus : M t ServiceStatus :=
  p <- gets state ;;
  m <- on_mumble W.status ;;
  h <- gets hardware ;;
  a <- gets _audioStatus ;;
  g <- _errorState ;;
  ret {| piCom := p; mumbleStatus := m; hardwareStatus := h; audio := a;
         global := g |}.

(** [_healthCheckCallback()] *)
Definition _healthCheckCallback : M t unit :=
  st <- serviceStatus ;;
  modify (setErrorFlasher (Severity_eqb (overall (global st)) STATUS_ERROR)).

(** *** Talk button *)

(** [_latchLogic()] *)
Definition _latchLogic : M t unit :=
  tx <- gets _txTimes ;;
  if (List.length tx =? 2)%nat then
    stop <- gets _stopTxTimes ;;
    let firstHoldDuration := sub (index stop 1) (index tx 1) in
    let secondHoldDuration := sub (index stop 0) (index tx 0) in
    let timeBetweenTxEvents := sub (index tx 0) (index tx 1) in
    if le firstHoldDuration LATCH_TIME_MS
       && le secondHoldDuration LATCH_TIME_MS
       && le timeBetweenTxEvents LATCH_GAP_MS
    then
      modify (set_micLatch true) ;;;
      modify (set_txTimes [])
    else
      modify (set_micLatch false)
  else
    modify (set_micLatch false).

(** [_txEvent(state)], the clock reading [now] at that moment. *)
Definition _txEvent (st : ButtonState) (now : Z) : M t unit :=
  match st with
  | DOWN =>
      mic_resume ;;;
      modify (fun s => set_txTimes (unshift_slice2 now (_txTimes s)) s) ;;;
      modify (set_transmitting true) ;;;
      modify (setTalkLed true)
  | UP =>
      modify (fun s => set_stopTxTimes (unshift_slice2 now (_stopTxTimes s)) s) ;;;
      modify (set_micLatch false) ;;;
      _latchLogic ;;;
      latched <- gets (fun s => micLatch (state s)) ;;
      when (negb latched)
        (mic_pause ;;;
         modify (set_transmitting false) ;;;
         modify (setTalkLed false))
  end.

Definition isDown (st : ButtonState) : bool :=
  match st with DOWN => true | UP => false end.

(** [_callEvent(state)] *)
Definition _callEvent (st : ButtonState) : M t unit :=
  modify (set_calling (isDown st)) ;;;
  modify (setCallLed (isDown st)) ;;;
  on_mumble (W.sendMessageToCurrentChannel
               (if isDown st then "CALLING" else "END CALLING")).

Definition notLatchedError : error :=
  StatusError {| code := 400; JS.message := "Cannot unlatch. Mic not latched";
                 innerError := None |}.

(** [unLatchMic()] *)
Definition unLatchMic (now : Z) : M t unit :=
  latched <- gets (fun s => micLatch (state s)) ;;
  if latched then _txEvent UP now
  else throw notLatchedError.

(** *** Runs of the talk controller *)

(** What reaches the talk controller: an edge of the TALK button, or the
    unlatch command; each with the clock reading when it is handled. *)
Inductive Input :=
| txButton (b : ButtonState)
| unlatch.

Definition handle (i : Input * Z) : M t unit :=
  match i with
  | (txButton b, now) => _txEvent b now
  | (unlatch, now) => unLatchMic now
  end.

Definition run (inputs : list (Input * Z)) (s : t) : t :=
  fold_left (fun s i => exec (handle i) s) inputs s.

(** The edges of a button that goes down, up, down, ...: [pressed] tells
    where the button is before the first input. *)
Fixpoint alternates (pressed : bool) (inputs : list (Input * Z)) : bool :=
  match inputs with
  | [] => true
  | (txButton DOWN, _) :: rest => negb pressed && alternates true rest
  | (txButton UP, _) :: rest => pressed && alternates false rest
  | (unlatch, _) :: rest => alternates pressed rest
  end.

(** *** Reconnecting *)

Definition set_audioStatus (a : AudioStatus) (s : t) : t :=
  {| mumble := mumble s; hardware := hardware s; state := state s;
     _txTimes := _txTimes s; _stopTxTimes := _stopTxTimes s;
     _audioStatus := a; mic := mic s |}.

(** [_disconnectMumble()] *)
Definition _disconnectMumble : M t unit :=
  modify (set_audioStatus AUDIO_NOT_SETUP) ;;;
  on_mumble W.disconnect.

(** [reconfigureMumbleAndReconnect(newConfig)], until it waits for the new
    connection, no other handler running at the awaits before.  (The field
    [mumbleConfig], which is read again only once the connection attempt is
    over, is not part of the state.) *)
Definition reconfigureMumbleAndReconnect (newConfig : W.Config) : M t unit :=
  _disconnectMumble ;;;
  modify (set_mumble (W.constructor newConfig)) ;;;
  on_mumble W.connect.


(** *** Hardware events *)

(** The four events that [_bindHardwareEvents] subscribes to. *)
Inductive HardwareEvent :=
| txButton_down
| txButton_up
| callButton_down
| callButton_up.

(** The handler that [_bindHardwareEvents] binds to each event. *)
Definition _bindHardwareEvents (e : HardwareEvent) (now : Z) : M t unit :=
  match e with
  | txButton_down => _txEvent DOWN now
  | txButton_up => _txEvent UP now
  | callButton_down => _callEvent DOWN
  | callButton_up => _callEvent UP
  end.

(** The service after a sequence of hardware events, each with the clock
    reading when it is handled. *)
Definition runHardware (events : list (HardwareEvent * Z)) (s : t) : t :=
  fold_left (fun s e => exec (_bindHardwareEvents (fst e) (snd e)) s) events s.

End PiComService.

(** ** Sample states *)

Module Sample.

Import PiComService.

Definition cfg : W.Config :=
  {| W.server := "mumble.local"; W.port := 64738; W.username := "picom";
     W.key := None; W.cert := None |}.

(** The service once the microphone was started and paused. *)
Definition ready : t := set_mic (Some MicPaused) (constructor cfg).

Definition down (now : Z) : Input * Z := (txButton DOWN, now).
Definition up (now : Z) : Input * Z := (txButton UP, now).

Definition landing : W.Channel := {| W.id := 7; W.name := "Landing Channel" |}.
Definition root : W.Channel := {| W.id := 0; W.name := "Root" |}.

(** A fresh connection object of the library, the user sitting in the root
    channel. *)
Definition conn : W.Connection :=
  {| W.user := Some {| W.channel := Some root |};
     W.channels := [root; landing];
     W.errorListeners := []; W.initializedListeners := 0;
     W.voiceListeners := 0; W.messageListeners := 0 |}.

(** A wrapper whose [connect()] went through to the ready signal. *)
Definition online : W.t :=
  exec W.connectionInitialized
    (exec (W.connectCallback None conn)
       (exec W.connect (W.constructor cfg))).

(** The same wrapper once the server has moved the user to the landing
    channel. *)
Definition arrived : W.t := W.on_connection (W.userMoved landing) online.

End Sample.

(** ** The latch decision, in the words of its description *)

(** Both histories hold exactly two entries, both holds last at most 500ms
    and the two key-downs are at most 750ms apart. *)
Definition latch_condition (downTime stopTime : list Z) : Prop :=
  exists d0 d1 u0 u1,
    downTime = [d0; d1] /\ stopTime = [u0; u1] /\
    u1 - d1 <= 500 /\ u0 - d0 <= 500 /\ d0 - d1 <= 750.

(** The test that [_latchLogic] performs on the two histories. *)
Definition latch_test (tx stop : list Z) : bool :=
  (List.length tx =? 2)%nat
  && (le (sub (index stop 1) (index tx 1)) PiComService.LATCH_TIME_MS
      && le (sub (index stop 0) (index tx 0)) PiComService.LATCH_TIME_MS
      && le (sub (index tx 0) (index tx 1)) PiComService.LATCH_GAP_MS).

(** While the latch is set, the key-down history holds at most one entry,
    and none when the button is up ([pressed] false). *)
Definition latched_inv (pressed : bool) (s : PiComService.t) : Prop :=
  PiComService.micLatch (PiComService.state s) = true ->
  (List.length (PiComService._txTimes s) <= 1)%nat /\
  (pressed = false -> PiComService._txTimes s = []).

(** The state of a join after [k] polls that all found the user in another
    channel; [k] is at least 1. *)
Definition pollState (channel : MumbleClientWrapper.Channel) (k : nat)
  : MumbleClientWrapper.Join :=
  {| MumbleClientWrapper.promise :=
       if Z.of_nat k >? MumbleClientWrapper.RETRY_LIMIT
       then Rejected MumbleClientWrapper.timeoutError else Pending;
     MumbleClientWrapper.retryCount := Z.min (Z.of_nat k) MAX_EXACT;
     MumbleClientWrapper.timers := 1;
     MumbleClientWrapper.joinRequests := [MumbleClientWrapper.id channel];
     MumbleClientWrapper.polls := k;
     MumbleClientWrapper.uncaught := [] |}.

(** The session's user is in a channel, and not in [channel]. *)
Definition elsewhere (channel : MumbleClientWrapper.Channel)
    (w : MumbleClientWrapper.t) : Prop :=
  exists c, MumbleClientWrapper.currentChannelId w = Normal c /\
            c <> MumbleClientWrapper.id channel.

(** The 'error' event that [_onError] emits for a transport error. *)
Definition terminated (err : string) : MumbleClientWrapper.Emitted :=
  MumbleClientWrapper.EmitError
    {| code := 500;
       message := "Mumble connection has terminated due to an error. Re-connect needed";
       innerError := Some err |}.

(** A message of the given severity. *)
Definition has_severity (sev : PiComService.Severity)
    (m : PiComService.StatusMessage) : bool :=
  PiComService.Severity_eqb (PiComService.status m) sev.

(** The wrapper is past the ready signal: only [_onError] listens for the
    connection's errors. *)
Definition past_ready (w : MumbleClientWrapper.t) : Prop :=
  MumbleClientWrapper._connected w = true /\
  MumbleClientWrapper.connectPromise w = Resolved tt /\
  exists c, MumbleClientWrapper.connection w = Some c /\
            MumbleClientWrapper.errorListeners c
            = [MumbleClientWrapper.onErrorListener].

(** What every join on [channel] keeps, whatever the polls find: at most one
    callback is queued, one join request was issued, the counter is the number
    of polls, an uncaught exception ends the polling, and the promise is
    resolved with [channel] only. *)
Definition join_inv (channel : MumbleClientWrapper.Channel)
    (j : MumbleClientWrapper.Join) : Prop :=
  (MumbleClientWrapper.timers j <= 1)%nat /\
  MumbleClientWrapper.joinRequests j = [MumbleClientWrapper.id channel] /\
  (1 <= MumbleClientWrapper.polls j)%nat /\
  MumbleClientWrapper.retryCount j
  = Z.min (Z.of_nat (MumbleClientWrapper.polls j)) MAX_EXACT /\
  (MumbleClientWrapper.uncaught j <> [] -> MumbleClientWrapper.timers j = 0%nat) /\
  (forall c, MumbleClientWrapper.promise j = Resolved c ->
             c = channel /\ MumbleClientWrapper.timers j = 0%nat).


(** * Properties *)

Section TalkController.

Import PiComService.

Lemma LATCH_GAP_MS_value : LATCH_GAP_MS = 750.
Proof. reflexivity. Qed.

Lemma latchLogic_eq (s : t) :
  _latchLogic s =
  (Normal tt,
   if latch_test (_txTimes s) (_stopTxTimes s)
   then set_txTimes [] (set_micLatch true s)
   else set_micLatch false s).
Proof.
  unfold _latchLogic, latch_test, bind, gets, modify.
  destruct (List.length (_txTimes s) =? 2)%nat; simpl; [|reflexivity].
  destruct (le _ _ && le _ _ && le _ _); reflexivity.
Qed.

Lemma latch_test_iff (tx stop : list Z) :
  (List.length stop <= 2)%nat ->
  latch_test tx stop = true <-> latch_condition tx stop.
Proof.
  intros Hlen. unfold latch_test, latch_condition. split.
  - intros H. apply andb_true_iff in H as [Hn H].
    apply Nat.eqb_eq in Hn.
    destruct tx as [|d0 [|d1 [|? ?]]]; try discriminate Hn.
    rewrite !andb_true_iff in H. destruct H as [[H1 H2] H3].
    destruct stop as [|u0 [|u1 [|? ?]]]; simpl in *;
      try discriminate H1; try discriminate H2; try lia.
    apply Z.leb_le in H1, H2, H3.
    rewrite LATCH_GAP_MS_value in H3. unfold LATCH_TIME_MS in *.
    exists d0, d1, u0, u1. repeat split; assumption.
  - intros (d0 & d1 & u0 & u1 & -> & -> & H1 & H2 & H3). simpl.
    rewrite LATCH_GAP_MS_value. unfold LATCH_TIME_MS.
    rewrite !andb_true_iff, !Z.leb_le. repeat split; assumption.
Qed.

Lemma unshift_slice2_length (x : Z) (a : list Z) :
  (List.length (unshift_slice2 x a) <= 2)%nat.
Proof. unfold unshift_slice2. rewrite length_firstn. lia. Qed.

(** What a key-up leaves behind, before the microphone is touched. *)
Lemma txEvent_UP_eq (s : t) (now : Z) :
  let stop := unshift_slice2 now (_stopTxTimes s) in
  _txEvent UP now s =
  if latch_test (_txTimes s) stop
  then (Normal tt,
        set_txTimes [] (set_micLatch true (set_micLatch false (set_stopTxTimes stop s))))
  else (mic_pause ;;; modify (set_transmitting false) ;;; modify (setTalkLed false))
         (set_micLatch false (set_micLatch false (set_stopTxTimes stop s))).
Proof.
  intros stop. unfold _txEvent. unfold bind at 1 2 3. unfold modify at 1 2.
  rewrite latchLogic_eq. cbn [set_micLatch set_stopTxTimes set_state _txTimes _stopTxTimes].
  fold stop.
  destruct (latch_test (_txTimes s) stop); reflexivity.
Qed.

Lemma txEvent_DOWN_eq (s : t) (now : Z) (m : Mic) :
  mic s = Some m ->
  _txEvent DOWN now s =
  (Normal tt,
   setTalkLed true
     (set_transmitting true
        (set_txTimes (unshift_slice2 now (_txTimes s))
           (set_mic (Some MicRunning) s)))).
Proof.
  intros Hm. unfold _txEvent, bind, mic_resume, modify. rewrite Hm. reflexivity.
Qed.

Lemma txEvent_mic (b : ButtonState) (now : Z) (s : t) (m : Mic) :
  mic s = Some m -> exists m', mic (exec (_txEvent b now) s) = Some m'.
Proof.
  intros Hm. destruct b.
  - unfold exec. rewrite txEvent_UP_eq.
    destruct (latch_test _ _); simpl.
    + eauto.
    + unfold bind, mic_pause, modify; simpl. rewrite Hm. simpl. eauto.
  - unfold exec. rewrite (txEvent_DOWN_eq _ _ _ Hm). simpl. eauto.
Qed.


Lemma run_cons (i : Input * Z) (inputs : list (Input * Z)) (s : t) :
  run (i :: inputs) s = run inputs (exec (handle i) s).
Proof. reflexivity. Qed.




(** C1: on a key-up the latch is set exactly when both histories hold two
    entries, the earlier and the later hold lasted at most 500ms each and the
    two key-downs are at most 750ms apart; the key-down history is cleared
    when the latch is set, and the latch is left false otherwise. *)
Theorem latch_decision_on_keyUp (s : t) (now : Z) :
  let s' := exec (_txEvent UP now) s in
  let stopTime := unshift_slice2 now (_stopTxTimes s) in
  _stopTxTimes s' = stopTime /\
  (micLatch (state s') = true <-> latch_condition (_txTimes s) stopTime) /\
  (micLatch (state s') = true -> _txTimes s' = []) /\
  (micLatch (state s') = false -> _txTimes s' = _txTimes s).
Proof.
  intros s' stopTime. subst s'. unfold exec. rewrite txEvent_UP_eq. fold stopTime.
  pose proof (latch_test_iff (_txTimes s) stopTime
                (unshift_slice2_length now (_stopTxTimes s))) as Hiff.
  destruct (latch_test (_txTimes s) stopTime) eqn:Htest.
  - simpl. repeat split; auto; try discriminate.
    intros _. apply Hiff. reflexivity.
  - assert (Hno : ~ latch_condition (_txTimes s) stopTime).
    { intros Hc. apply Hiff in Hc. discriminate Hc. }
    unfold bind, mic_pause, modify; simpl.
    destruct (mic s); simpl; repeat split; auto; try discriminate;
      intros Hc; contradiction.
Qed.

(** While the latch is set the key-down history is short, as long as the
    edges of the button alternate. *)
Lemma latch_test_length (tx stop : list Z) :
  latch_test tx stop = true -> List.length tx = 2%nat.
Proof.
  unfold latch_test. intros H. apply andb_true_iff in H as [H _].
  apply Nat.eqb_eq. exact H.
Qed.

Lemma handle_latched_inv (p : bool) (i : Input * Z) (rest : list (Input * Z)) (s : t) :
  alternates p (i :: rest) = true -> latched_inv p s ->
  exists p', alternates p' rest = true /\ latched_inv p' (exec (handle i) s).
Proof.
  intros Ha Hinv. destruct i as [[[]|] now]; cbn [alternates] in Ha.
  - (* key-up *)
    apply andb_true_iff in Ha as [_ Ha]. exists false. split; [exact Ha|].
    cbn [handle]. unfold exec. rewrite txEvent_UP_eq.
    destruct (latch_test _ _); unfold latched_inv; simpl.
    + auto.
    + unfold bind, mic_pause, modify. simpl.
      destruct (mic s); simpl; intros H; discriminate H.
  - (* key-down *)
    apply andb_true_iff in Ha as [Hp Ha]. apply negb_true_iff in Hp. subst p.
    exists true. split; [exact Ha|]. cbn [handle]. unfold exec.
    destruct (mic s) as [m|] eqn:Hm.
    + rewrite (txEvent_DOWN_eq _ _ _ Hm). unfold latched_inv in *. simpl.
      intros Hl. destruct (Hinv Hl) as [_ Hnil]. rewrite (Hnil eq_refl).
      simpl. split; [lia | discriminate].
    + unfold _txEvent, bind, mic_resume. rewrite Hm. simpl.
      unfold latched_inv in *. intros Hl. destruct (Hinv Hl) as [Hlen _].
      split; [exact Hlen | discriminate].
  - (* unlatch *)
    exists p. split; [exact Ha|]. cbn [handle]. unfold unLatchMic, exec, bind, gets.
    destruct (micLatch (state s)) eqn:Hl; [|exact Hinv].
    rewrite txEvent_UP_eq.
    destruct (latch_test _ _) eqn:Ht.
    + apply latch_test_length in Ht. destruct (Hinv Hl) as [Hlen _]. lia.
    + unfold latched_inv, bind, mic_pause, modify. simpl.
      destruct (mic s); simpl; intros H; discriminate H.
Qed.

Lemma run_latched_inv (inputs : list (Input * Z)) (p : bool) (s : t) :
  alternates p inputs = true -> latched_inv p s ->
  exists p', latched_inv p' (run inputs s).
Proof.
  revert p s. induction inputs as [|i inputs IH]; intros p s Ha Hinv.
  - exists p. exact Hinv.
  - rewrite run_cons.
    destruct (handle_latched_inv p i inputs s Ha Hinv) as (p' & Ha' & Hinv').
    exact (IH p' _ Ha' Hinv').
Qed.

(** C5, as stated, fails when two key-downs arrive while the latch is set:
    the unlatch then latches again and transmission goes on. *)
Lemma unLatchMic_relatch_counterexample :
  let s := run [Sample.down 0; Sample.up 100; Sample.down 200; Sample.up 300;
                Sample.down 400; Sample.down 500] Sample.ready in
  let s' := exec (unLatchMic 600) s in
  micLatch (state s) = true /\
  outcome (unLatchMic 600) s = Normal tt /\
  transmitting (state s') = true /\ micLatch (state s') = true /\
  mic s' = Some MicRunning /\ talkLed (hardware s') = true /\
  ~ (transmitting (state s') = false /\ micLatch (state s') = false /\
     mic s' = Some MicPaused /\ talkLed (hardware s') = false).
Proof.
  vm_compute. repeat split. intros [H _]. discriminate H.
Qed.

(** C5, amended: unlatching while the latch is clear throws the 400-coded
    error and changes nothing; unlatching while it is set is the key-up
    handler itself and, when that key-up does not meet the latch condition,
    ends with transmission off, the latch clear, the capture paused and the
    indicator off.  The key-up cannot meet the latch condition when the
    button's edges alternated since a state with the latch clear. *)
Theorem unLatchMic_effect (s : t) (now : Z) (m : Mic) :
  mic s = Some m ->
  (micLatch (state s) = false -> unLatchMic now s = (Throw notLatchedError, s)) /\
  (micLatch (state s) = true ->
   unLatchMic now s = _txEvent UP now s /\
   (~ latch_condition (_txTimes s) (unshift_slice2 now (_stopTxTimes s)) ->
    let s' := exec (unLatchMic now) s in
    outcome (unLatchMic now) s = Normal tt /\
    transmitting (state s') = false /\ micLatch (state s') = false /\
    mic s' = Some MicPaused /\ talkLed (hardware s') = false)) /\
  (forall inputs s0,
     micLatch (state s0) = false -> alternates false inputs = true ->
     s = run inputs s0 -> micLatch (state s) = true ->
     ~ latch_condition (_txTimes s) (unshift_slice2 now (_stopTxTimes s))).
Proof.
  intros Hm. split; [|split].
  - intros Hl. unfold unLatchMic, bind, gets. rewrite Hl. reflexivity.
  - intros Hl.
    assert (Heq : unLatchMic now s = _txEvent UP now s).
    { unfold unLatchMic, bind, gets. rewrite Hl. reflexivity. }
    split; [exact Heq|]. intros Hno s'. subst s'. unfold exec, outcome.
    rewrite Heq, txEvent_UP_eq.
    destruct (latch_test _ _) eqn:Ht.
    + exfalso. apply Hno. apply latch_test_iff; [apply unshift_slice2_length | exact Ht].
    + unfold bind, mic_pause, modify. simpl. rewrite Hm. simpl. auto.
  - intros inputs s0 Hl0 Ha -> Hl (d0 & d1 & u0 & u1 & Htx & _).
    destruct (run_latched_inv inputs false s0 Ha) as [p' Hinv].
    { intros H. rewrite Hl0 in H. discriminate H. }
    destruct (Hinv Hl) as [Hlen _]. rewrite Htx in Hlen. simpl in Hlen. lia.
Qed.

Lemma unLatchMic_effect_witness :
  let s := run [Sample.down 0; Sample.up 100; Sample.down 200; Sample.up 300]
               Sample.ready in
  let s' := exec (unLatchMic 5000) s in
  mic s = Some MicRunning /\ micLatch (state s) = true /\
  transmitting (state s') = false /\ micLatch (state s') = false /\
  mic s' = Some MicPaused /\ talkLed (hardware s') = false.
Proof.
  intros s s'.
  assert (Hm : mic s = Some MicRunning) by (vm_compute; reflexivity).
  assert (Hl : micLatch (state s) = true) by (vm_compute; reflexivity).
  destruct (unLatchMic_effect s 5000 MicRunning Hm) as (_ & Hon & Halt).
  destruct (Hon Hl) as [_ Hres].
  assert (Hl0 : micLatch (state Sample.ready) = false) by reflexivity.
  assert (Ha : alternates false
                 [Sample.down 0; Sample.up 100; Sample.down 200; Sample.up 300]
               = true) by reflexivity.
  pose proof (Halt _ Sample.ready Hl0 Ha eq_refl Hl) as Hno.
  destruct (Hres Hno) as (_ & H1 & H2 & H3 & H4).
  repeat split; assumption.
Defined.






End TalkController.

Section StatusAggregator.

Import PiComService.

(** C4: the report lists, in the fixed order, the audio warning, the audio
    error, the hardware warning and the connection error or warning that
    apply; it is ERROR when a message is, else WARNING when a message is, else
    NORMAL; the health check drives the error flasher with "overall is ERROR"
    and changes nothing else; with audio not set up, hardware set up, no
    connection and no attempt the report is WARNING with exactly the two
    warnings.  The aggregation fails only when reading the session status
    does. *)
Theorem status_aggregation (s : t) :
  let w := mumble s in
  let expected :=
    (if AudioStatus_eqb (_audioStatus s) AUDIO_NOT_SETUP
     then [{| message := "WARNING - Audio Not Setup"; status := STATUS_WARN |}]
     else []) ++
    (if AudioStatus_eqb (_audioStatus s) AUDIO_SETUP_ERROR
     then [{| message := "ERROR - Audio Error"; status := STATUS_ERROR |}]
     else []) ++
    (if setupDone (hardware s) then []
     else [{| message := "WARNING - Hardware Not Setup"; status := STATUS_WARN |}]) ++
    (if W._connected w then []
     else if W._connectCalled w
          then [{| message := "ERROR - Mumble Not Connected"; status := STATUS_ERROR |}]
          else [{| message := "WARNING - Mumble Connection Not Attempted";
                   status := STATUS_WARN |}]) in
  let severity :=
    if existsb (has_severity STATUS_ERROR) expected then STATUS_ERROR
    else if existsb (has_severity STATUS_WARN) expected then STATUS_WARN
    else STATUS_NORMAL in
  match outcome W.status w with
  | Normal _ =>
      _errorState s = (Normal {| overall := severity; messages := expected |}, s) /\
      _healthCheckCallback s =
        (Normal tt, setErrorFlasher (Severity_eqb severity STATUS_ERROR) s) /\
      (_audioStatus s = AUDIO_NOT_SETUP -> setupDone (hardware s) = true ->
       W._connected w = false -> W._connectCalled w = false ->
       severity = STATUS_WARN /\
       expected =
         [{| message := "WARNING - Audio Not Setup"; status := STATUS_WARN |};
          {| message := "WARNING - Mumble Connection Not Attempted";
             status := STATUS_WARN |}])
  | Throw e =>
      W._connected w = true /\
      outcome _errorState s = Throw e /\ exec _errorState s = s /\
      _healthCheckCallback s = (Throw e, s)
  end.
Proof.
  destruct s as [w hw st tx stop audio mc].
  destruct w as [conn called cfg c pr cl em subs].
  destruct hw as [done tl cl' ef].
  assert (Hc : conn = true \/ conn = false) by (destruct conn; auto).
  destruct Hc as [-> | ->].
  - destruct c as [[[[ch]|] chs els il vl ml]|];
      destruct audio, done; cbn;
        (repeat split; try reflexivity; intros; discriminate).
  - destruct audio, done, called; cbn;
      (repeat split; try reflexivity; intros; discriminate).
Qed.

End StatusAggregator.

Section ChannelJoiner.

Import MumbleClientWrapper.

Lemma incr_min (k : nat) :
  incr (Z.min (Z.of_nat k) MAX_EXACT) = Z.min (Z.of_nat (S k)) MAX_EXACT.
Proof.
  unfold incr, MAX_EXACT.
  destruct (Z.ltb_spec (Z.min (Z.of_nat k) 9007199254740992) 9007199254740992); lia.
Qed.

(** After the channel was found and joined, the first poll that finds the
    user elsewhere leaves one callback queued. *)
Lemma joiner_first_poll (fetch : t -> completion (option Channel)) (w : t)
    (channel : Channel) :
  fetch w = Normal (Some channel) -> elsewhere channel w ->
  _channelJoinerWithChannelFetchFunc fetch w = pollState channel 1.
Proof.
  intros Hf (c & Hc & Hne).
  unfold _channelJoinerWithChannelFetchFunc, exec, try_catch, whileLoop, bind,
    modify, gets, when.
  rewrite Hf, Hc. cbn.
  apply Z.eqb_neq in Hne. rewrite Z.eqb_sym in Hne. rewrite Hne.
  reflexivity.
Qed.

(** A queued callback that finds the user elsewhere counts one more poll,
    rejects once the count is above the limit, and queues itself again. *)
Lemma timerFires_elsewhere (channel : Channel) (w : t) (k : nat) :
  elsewhere channel w ->
  timerFires channel w (pollState channel k) = pollState channel (S k).
Proof.
  intros (c & Hc & Hne).
  unfold timerFires, whileLoop, bind, modify, gets, when, pollState.
  cbn [timers]. rewrite Hc.
  apply Z.eqb_neq in Hne. rewrite Z.eqb_sym in Hne. rewrite Hne.
  unfold RETRY_LIMIT. cbn -[Z.of_nat Z.gtb Z.min incr].
  rewrite incr_min.
  replace (Z.min (Z.of_nat (S k)) MAX_EXACT >? 1000)
    with (Z.of_nat (S k) >? 1000)
    by (unfold MAX_EXACT; rewrite !Z.gtb_ltb;
        destruct (Z.ltb_spec 1000 (Z.of_nat (S k)));
        destruct (Z.ltb_spec 1000 (Z.min (Z.of_nat (S k)) 9007199254740992));
        try reflexivity; lia).
  destruct (Z.of_nat (S k) >? 1000) eqn:Hk1; destruct (Z.of_nat k >? 1000) eqn:Hk;
    unfold ret, setTimeout, settle, count_poll, incr_retryCount, set_timers;
    cbn [promise retryCount timers joinRequests polls uncaught];
    rewrite ?incr_min; try reflexivity.
  rewrite Z.gtb_ltb in Hk, Hk1. apply Z.ltb_lt in Hk. apply Z.ltb_ge in Hk1. lia.
Qed.

Lemma eventLoop_elsewhere (channel : Channel) (ws : list t) (k : nat) :
  Forall (elsewhere channel) ws ->
  eventLoop channel ws (pollState channel k) =
  pollState channel (k + List.length ws).
Proof.
  intros H. revert k. induction H as [|w ws Hw _ IH]; intros k.
  - simpl. rewrite Nat.add_0_r. reflexivity.
  - cbn [eventLoop List.length]. rewrite (timerFires_elsewhere _ _ _ Hw), IH.
    f_equal. lia.
Qed.

(** The join whose lookup finds [channel] while the user never shows up in
    it, after the synchronous part and [length ws] turns of the event loop. *)
Lemma polling_elsewhere (fetch : t -> completion (option Channel)) (w : t)
    (channel : Channel) (ws : list t) :
  fetch w = Normal (Some channel) -> Forall (elsewhere channel) (w :: ws) ->
  eventLoop channel ws (_channelJoinerWithChannelFetchFunc fetch w) =
  pollState channel (S (List.length ws)).
Proof.
  intros Hf H. inversion H as [|? ? Hw Hws]; subst.
  rewrite (joiner_first_poll _ _ _ Hf Hw).
  apply (eventLoop_elsewhere _ _ 1 Hws).
Qed.

Lemma online_elsewhere : elsewhere Sample.landing Sample.online.
Proof. exists 0. split; [reflexivity | discriminate]. Qed.

Lemma repeat_online_elsewhere (n : nat) :
  Forall (elsewhere Sample.landing) (repeat Sample.online n).
Proof.
  induction n; simpl; constructor; auto using online_elsewhere.
Qed.

(** C2, as stated, fails: after exactly 1000 polls that never matched, the
    join has not failed; it is still pending, and it succeeds if poll 1001
    finds the user in the channel. *)
Lemma join_timeout_counterexample :
  let j := eventLoop Sample.landing (repeat Sample.online 999)
             (joinChannelByName "Landing Channel" Sample.online) in
  polls j = 1000%nat /\ promise j = Pending /\
  promise j <> Rejected timeoutError /\
  promise (timerFires Sample.landing Sample.arrived j) = Resolved Sample.landing.
Proof.
  vm_compute. repeat split. discriminate.
Qed.

(** C2, amended: while every poll finds the user in another channel, the
    join is pending through the first 1000 polls and is rejected with "Max
    retry exceeded" on poll 1001, the first to find the retry count above the
    limit; it stays rejected with that error afterwards. *)
Theorem join_timeout_on_poll_1001 (fetch : t -> completion (option Channel))
    (w : t) (channel : Channel) (ws : list t) :
  fetch w = Normal (Some channel) -> Forall (elsewhere channel) (w :: ws) ->
  let j := eventLoop channel ws (_channelJoinerWithChannelFetchFunc fetch w) in
  polls j = S (List.length ws) /\
  retryCount j = Z.min (Z.of_nat (polls j)) MAX_EXACT /\
  joinRequests j = [id channel] /\
  ((polls j <= 1000)%nat -> promise j = Pending) /\
  ((1001 <= polls j)%nat -> promise j = Rejected timeoutError).
Proof.
  intros Hf H j. subst j. rewrite (polling_elsewhere _ _ _ _ Hf H).
  unfold pollState, RETRY_LIMIT. cbn [polls retryCount joinRequests promise].
  repeat split.
  - intros Hle. destruct (Z.of_nat (S (List.length ws)) >? 1000) eqn:Hk;
      [|reflexivity].
    rewrite Z.gtb_ltb in Hk. apply Z.ltb_lt in Hk. lia.
  - intros Hle. destruct (Z.of_nat (S (List.length ws)) >? 1000) eqn:Hk;
      [reflexivity|].
    rewrite Z.gtb_ltb in Hk. apply Z.ltb_ge in Hk. lia.
Qed.

Lemma join_timeout_on_poll_1001_witness :
  channelByName "Landing Channel" Sample.online = Normal (Some Sample.landing) /\
  Forall (elsewhere Sample.landing) (Sample.online :: repeat Sample.online 1000) /\
  promise (eventLoop Sample.landing (repeat Sample.online 1000)
             (joinChannelByName "Landing Channel" Sample.online))
  = Rejected timeoutError.
Proof.
  assert (Hf : channelByName "Landing Channel" Sample.online
               = Normal (Some Sample.landing)) by reflexivity.
  assert (He : Forall (elsewhere Sample.landing)
                 (Sample.online :: repeat Sample.online 1000))
    by apply (repeat_online_elsewhere 1001).
  split; [exact Hf|]. split; [exact He|].
  destruct (join_timeout_on_poll_1001 _ _ _ _ Hf He) as (Hp & _ & _ & _ & Hrej).
  apply Hrej. unfold joinChannelByName in *. rewrite Hp.
  rewrite repeat_length. lia.
Defined.

(** C10: while every poll finds the user in another channel, every turn of
    the event loop leaves a [whileLoop] callback queued, before and after the
    rejection: the next turn polls again, without end. *)
Theorem polling_never_stops (fetch : t -> completion (option Channel))
    (w : t) (channel : Channel) (ws : list t) (w' : t) :
  fetch w = Normal (Some channel) -> Forall (elsewhere channel) (w :: ws) ->
  elsewhere channel w' ->
  let j := eventLoop channel ws (_channelJoinerWithChannelFetchFunc fetch w) in
  timers j = 1%nat /\ uncaught j = [] /\
  polls j = S (List.length ws) /\
  ((1000 <= List.length ws)%nat -> promise j = Rejected timeoutError) /\
  polls (timerFires channel w' j) = S (polls j) /\
  timers (timerFires channel w' j) = 1%nat.
Proof.
  intros Hf H Hw' j. subst j. rewrite (polling_elsewhere _ _ _ _ Hf H).
  rewrite (timerFires_elsewhere _ _ _ Hw').
  unfold pollState, RETRY_LIMIT. cbn [polls timers uncaught promise].
  repeat split.
  intros Hle. destruct (Z.of_nat (S (List.length ws)) >? 1000) eqn:Hk;
    [reflexivity|].
  rewrite Z.gtb_ltb in Hk. apply Z.ltb_ge in Hk. lia.
Qed.

Lemma polling_never_stops_witness :
  channelByName "Landing Channel" Sample.online = Normal (Some Sample.landing) /\
  Forall (elsewhere Sample.landing) (Sample.online :: repeat Sample.online 2000) /\
  let j := eventLoop Sample.landing (repeat Sample.online 2000)
             (joinChannelByName "Landing Channel" Sample.online) in
  promise j = Rejected timeoutError /\ timers j = 1%nat /\
  polls (timerFires Sample.landing Sample.online j) = 2002%nat.
Proof.
  assert (Hf : channelByName "Landing Channel" Sample.online
               = Normal (Some Sample.landing)) by reflexivity.
  assert (He : Forall (elsewhere Sample.landing)
                 (Sample.online :: repeat Sample.online 2000))
    by apply (repeat_online_elsewhere 2001).
  split; [exact Hf|]. split; [exact He|].
  destruct (polling_never_stops _ _ _ _ Sample.online Hf He online_elsewhere)
    as (Ht & _ & Hp & Hrej & Hnext & _).
  unfold joinChannelByName. cbv zeta.
  rewrite repeat_length in Hp, Hrej.
  split; [apply Hrej; lia|]. split; [exact Ht|].
  rewrite Hnext, Hp. reflexivity.
Defined.

(** C6: when the lookup returns nothing, the promise is rejected at once with
    the 404-coded error; no join request was issued, no poll was made and no
    callback is queued, so no later turn of the event loop polls either. *)
Theorem join_not_found (fetch : t -> completion (option Channel)) (w : t) :
  fetch w = Normal None ->
  let j := _channelJoinerWithChannelFetchFunc fetch w in
  promise j = Rejected (StatusError {| code := 404;
                                       message := "Channel does not exist";
                                       innerError := None |}) /\
  joinRequests j = [] /\ polls j = 0%nat /\ timers j = 0%nat /\
  forall channel ws, eventLoop channel ws j = j.
Proof.
  intros Hf j. subst j.
  unfold _channelJoinerWithChannelFetchFunc, exec, try_catch. rewrite Hf.
  cbn. repeat split.
  intros channel ws. induction ws as [|w' ws IH]; [reflexivity|].
  cbn [eventLoop]. exact IH.
Qed.

Lemma join_not_found_witness :
  channelByName "Lounge" Sample.online = Normal None /\
  let j := joinChannelByName "Lounge" Sample.online in
  promise j = Rejected (StatusError {| code := 404;
                                       message := "Channel does not exist";
                                       innerError := None |}) /\
  joinRequests j = [] /\ polls j = 0%nat /\ timers j = 0%nat /\
  forall channel ws, eventLoop channel ws j = j.
Proof.
  split; [reflexivity|].
  exact (join_not_found (channelByName "Lounge") Sample.online eq_refl).
Defined.

End ChannelJoiner.

Section SessionClient.

Import MumbleClientWrapper.

(** [_onError] records the emitted event and touches nothing else. *)
Lemma onError_frame (err : string) (w : t) :
  exec (_onError err) w = record_emit (terminated err) w.
Proof.
  unfold _onError, emit_error, exec, terminated.
  destruct (errorSubscribers w); reflexivity.
Qed.

Lemma connectionError_past_ready (err : string) (w : t) :
  past_ready w ->
  exec (connectionError err) w = record_emit (terminated err) w.
Proof.
  intros (_ & _ & c & Hc & Hl).
  unfold connectionError, exec. rewrite Hc, Hl.
  cbn [forEachM runErrorListener]. unfold bind.
  pose proof (onError_frame err w) as H. unfold exec in H.
  destruct (_onError err w) as [[[]|e] w']; cbn [snd] in *; exact H.
Qed.

Lemma record_emit_past_ready (e : Emitted) (w : t) :
  past_ready w -> past_ready (record_emit e w).
Proof. intros H. exact H. Qed.

Lemma connect_past_ready (cfg : Config) (conn : Connection) (subscribers : nat) :
  errorListeners conn = [] -> initializedListeners conn = 0%nat ->
  past_ready
    (exec connectionInitialized
       (exec (connectCallback None conn)
          (exec connect (Nat.iter subscribers on_error (constructor cfg))))).
Proof.
  intros Hl Hi. destruct conn as [u chs els il vl ml]. cbn in Hl, Hi. subst.
  assert (H : forall w, connection w = None ->
            past_ready
              (exec connectionInitialized
                 (exec (connectCallback None
                          {| user := u; channels := chs; errorListeners := [];
                             initializedListeners := 0; voiceListeners := vl;
                             messageListeners := ml |})
                    (exec connect w)))).
  { intros w Hw. unfold past_ready. cbn. repeat split. eexists. split; reflexivity. }
  apply H. induction subscribers; [reflexivity | exact IHsubscribers].
Qed.

(** C7: once the ready signal was handled, every transport error only adds
    one 500-coded 'error' event to what the wrapper emits; the connected flag
    stays true, the connect promise stays resolved, and no call is made on
    the library (no reconnect). *)
Theorem error_after_ready_keeps_connected
    (cfg : Config) (conn : Connection) (subscribers : nat) (errs : list string) :
  errorListeners conn = [] -> initializedListeners conn = 0%nat ->
  let w := exec connectionInitialized
             (exec (connectCallback None conn)
                (exec connect (Nat.iter subscribers on_error (constructor cfg)))) in
  let w' := fold_left (fun w err => exec (connectionError err) w) errs w in
  _connected w = true /\
  _connected w' = true /\
  emitted w' = emitted w ++ map terminated errs /\
  calls w' = calls w /\
  connection w' = connection w /\
  connectPromise w' = Resolved tt /\
  _connectCalled w' = _connectCalled w.
Proof.
  intros Hl Hi w w'.
  pose proof (connect_past_ready cfg conn subscribers Hl Hi) as Hw. fold w in Hw.
  clearbody w. subst w'. revert w Hw.
  induction errs as [|err errs IH]; intros w Hw.
  - cbn. rewrite app_nil_r. destruct Hw as (H1 & H2 & _). auto 10.
  - cbn [fold_left map]. rewrite (connectionError_past_ready err w Hw).
    destruct (IH _ (record_emit_past_ready (terminated err) w Hw))
      as (_ & H2 & H3 & H4 & H5 & H6 & H7).
    destruct Hw as (H1 & _).
    repeat split; try assumption.
    rewrite H3. cbn [record_emit emitted]. rewrite <- app_assoc. reflexivity.
Qed.

Lemma error_after_ready_keeps_connected_witness :
  errorListeners Sample.conn = [] /\ initializedListeners Sample.conn = 0%nat /\
  let w' := fold_left (fun w err => exec (connectionError err) w)
              ["ECONNRESET"; "EPIPE"] Sample.online in
  _connected w' = true /\
  emitted w' = [terminated "ECONNRESET"; terminated "EPIPE"].
Proof.
  split; [reflexivity|]. split; [reflexivity|].
  destruct (error_after_ready_keeps_connected Sample.cfg Sample.conn 0
              ["ECONNRESET"; "EPIPE"] eq_refl eq_refl)
    as (_ & H2 & H3 & _).
  split; [exact H2 | exact H3].
Defined.

(** C8, as stated, fails: after [disconnect()] the wrapper is not connected,
    yet the call returns normally and has handed the text to the channel. *)
Lemma send_while_disconnected_counterexample :
  let w := exec disconnect Sample.online in
  _connected w = false /\
  sendMessageToCurrentChannel "CALLING" w =
    (Normal tt, call (CallSendMessage 0 "CALLING") w) /\
  calls (exec (sendMessageToCurrentChannel "CALLING") w) =
    calls w ++ [CallSendMessage 0 "CALLING"].
Proof.
  vm_compute. repeat split.
Qed.

(** C8, amended: the call never looks at the connected flag.  Without a
    connection object, or without a current user or channel on it, it throws
    a [TypeError] and sends nothing; with a current channel on the stored
    connection it hands the text to that channel and returns normally,
    whatever the connected flag says. *)
Theorem sendMessage_ignores_connected (text : string) (w : t) :
  (match currentChannel w with
   | Normal (Some ch) =>
       sendMessageToCurrentChannel text w =
       (Normal tt, call (CallSendMessage (id ch) text) w)
   | _ =>
       exists what, sendMessageToCurrentChannel text w = (Throw (TypeError what), w)
   end) /\
  (connection w = None ->
   exists what, sendMessageToCurrentChannel text w = (Throw (TypeError what), w)) /\
  (forall b,
     outcome (sendMessageToCurrentChannel text) (set_connected b w) =
     outcome (sendMessageToCurrentChannel text) w /\
     exec (sendMessageToCurrentChannel text) (set_connected b w) =
     set_connected b (exec (sendMessageToCurrentChannel text) w)).
Proof.
  unfold sendMessageToCurrentChannel, currentChannel, outcome, exec.
  split; [|split].
  - destruct (connection w) as [c|]; [destruct (user c) as [u|];
      [destruct (channel u)|]|]; eauto.
  - intros ->. eauto.
  - intros b. cbn [set_connected connection].
    destruct (connection w) as [c|]; [destruct (user c) as [u|];
      [destruct (channel u)|]|]; split; reflexivity.
Qed.

(** C9: without a stored connection, [disconnect()] clears the connected
    flag and then fails with a [TypeError] on the undefined field; that is
    the case for a fresh wrapper, after [connect()] was called, and after the
    transport callback reported an error. *)
Theorem disconnect_without_connection (w : t) :
  connection w = None ->
  disconnect w =
    (Throw (TypeError "Cannot read property 'disconnect' of undefined"),
     set_connected false w) /\
  _connected (exec disconnect w) = false /\
  calls (exec disconnect w) = calls w /\
  forall cfg e conn,
    connection (constructor cfg) = None /\
    connection (exec connect (constructor cfg)) = None /\
    connection (exec (connectCallback (Some e) conn)
                  (exec connect (constructor cfg))) = None.
Proof.
  intros Hc. unfold disconnect, exec, bind, modify, gets, throw.
  cbn [set_connected connection]. rewrite Hc. cbn. repeat split.
Qed.

Lemma disconnect_without_connection_witness :
  let w := exec (connectCallback (Some "ECONNREFUSED") Sample.conn)
             (exec connect (constructor Sample.cfg)) in
  connection w = None /\
  outcome disconnect w =
    Throw (TypeError "Cannot read property 'disconnect' of undefined") /\
  _connected (exec disconnect w) = false.
Proof.
  intros w.
  assert (Hc : connection w = None) by reflexivity.
  destruct (disconnect_without_connection w Hc) as (H1 & H2 & _).
  split; [exact Hc|]. split; [|exact H2].
  unfold outcome. rewrite H1. reflexivity.
Defined.

End SessionClient.

Section SessionLifecycle.

Import MumbleClientWrapper.

(** A loop of handlers keeps what each handler keeps, however it ends. *)
Lemma repeatM_keeps {S : Type} (P : S -> Prop) (m : M S unit) (n : nat) :
  (forall s, P s -> P (exec m s)) ->
  forall s, P s -> P (exec (repeatM n m) s).
Proof.
  intros Hm. induction n as [|n IH]; intros s Hs; [exact Hs|].
  cbn [repeatM]. unfold exec, bind. specialize (Hm s Hs). unfold exec in Hm.
  destruct (m s) as [[[]|e] s']; cbn [snd] in *; [|exact Hm].
  apply (IH s' Hm).
Qed.

Lemma forEachM_keeps {S A : Type} (P : S -> Prop) (f : A -> M S unit) (l : list A) :
  (forall a s, P s -> P (exec (f a) s)) ->
  forall s, P s -> P (exec (forEachM f l) s).
Proof.
  intros Hf. induction l as [|a l IH]; intros s Hs; [exact Hs|].
  cbn [forEachM]. unfold exec, bind. specialize (Hf a s Hs). unfold exec in Hf.
  destruct (f a s) as [[[]|e] s']; cbn [snd] in *; [|exact Hf].
  apply (IH s' Hf).
Qed.

Lemma initializedHandler_connection (w : t) :
  connection w <> None -> connection (exec initializedHandler w) <> None.
Proof.
  intros H. destruct (connection w) as [c|] eqn:Hc; [|contradiction].
  unfold initializedHandler, exec, bind, modify, on_connection. cbn.
  rewrite Hc. discriminate.
Qed.

Lemma runErrorListener_frame (err : string) (l : ErrorListener) (w : t) :
  let w' := exec (runErrorListener err l) w in
  _connected w' = _connected w /\ _connectCalled w' = _connectCalled w /\
  connection w' = connection w /\ calls w' = calls w.
Proof.
  destruct l; cbn [runErrorListener].
  - unfold exec, modify. cbn. auto.
  - unfold _onError, emit_error, exec. destruct (errorSubscribers w); cbn; auto.
Qed.

Lemma connectionError_frame (err : string) (w : t) :
  let w' := exec (connectionError err) w in
  _connected w' = _connected w /\ _connectCalled w' = _connectCalled w /\
  connection w' = connection w /\ calls w' = calls w.
Proof.
  unfold connectionError, exec.
  destruct (connection w) as [c|] eqn:Hc; [|cbn; auto].
  destruct (errorListeners c) as [|l ls] eqn:Hl; [cbn; auto|].
  rewrite <- Hc.
  apply (forEachM_keeps
           (fun w' => _connected w' = _connected w /\
                      _connectCalled w' = _connectCalled w /\
                      connection w' = connection w /\ calls w' = calls w)).
  - intros a s (H1 & H2 & H3 & H4).
    destruct (runErrorListener_frame err a s) as (G1 & G2 & G3 & G4).
    repeat split; congruence.
  - auto.
Qed.

Lemma initializedHandler_connectCalled (w : t) :
  _connectCalled (exec initializedHandler w) = _connectCalled w.
Proof. reflexivity. Qed.

(** One event: the attempt flag is never lowered, a stored connection is
    never dropped, and the connected flag is raised only over a stored
    connection. *)
Lemma step_invariants (e : Event) (w : t) :
  let w' := exec (step e) w in
  (_connectCalled w = true -> _connectCalled w' = true) /\
  (connection w <> None -> connection w' <> None) /\
  ((_connected w = true -> connection w <> None) ->
   _connected w' = true -> connection w' <> None).
Proof.
  destruct e as [|error conn| |err| |text|ch|]; cbn [step].
  - (* connect *) unfold connect, exec, bind, modify, gets. cbn. auto.
  - (* transport callback *)
    destruct error as [e|]; unfold connectCallback, exec, bind, modify, gets; cbn.
    + auto.
    + repeat split; auto; intros; discriminate.
  - (* initialized *)
    unfold connectionInitialized, exec.
    destruct (connection w) as [c|] eqn:Hc.
    + assert (Hk : connection (snd (repeatM (initializedListeners c)
                                      initializedHandler w)) <> None).
      { apply (repeatM_keeps (fun w => connection w <> None)).
        - apply initializedHandler_connection.
        - rewrite Hc. discriminate. }
      repeat split; auto.
      apply (repeatM_keeps (fun w' => _connectCalled w = true ->
                                      _connectCalled w' = true)); auto.
    + cbn. rewrite Hc. auto.
  - (* error *)
    destruct (connectionError_frame err w) as (H1 & H2 & H3 & H4).
    cbv zeta. rewrite H1, H2, H3. auto.
  - (* disconnect *)
    unfold disconnect, exec, bind, modify, gets, throw.
    cbn [set_connected connection snd fst].
    destruct (connection w) as [c|] eqn:Hc; cbn; rewrite ?Hc;
      repeat split; auto; intros; discriminate.
  - (* send *)
    unfold sendMessageToCurrentChannel, exec.
    destruct (currentChannel w) as [[ch|]|e]; cbn; auto.
  - (* the user is moved *)
    unfold exec, modify, on_connection. cbn.
    destruct (connection w); cbn; repeat split; auto; intros; discriminate.
  - (* a subscriber *)
    unfold exec, modify. cbn. auto.
Qed.

(** X1: whatever happens to a wrapper, the attempt flag, once raised, stays
    raised; a stored connection object is never dropped; and the connected
    flag is only ever true over a stored connection. *)
Theorem wrapper_invariants (es : list Event) (w : t) :
  let w' := play es w in
  (_connectCalled w = true -> _connectCalled w' = true) /\
  (connection w <> None -> connection w' <> None) /\
  ((_connected w = true -> connection w <> None) ->
   _connected w' = true -> connection w' <> None).
Proof.
  revert w. induction es as [|e es IH]; intros w; [cbn; auto|].
  cbn [play fold_left]. fold (play es (exec (step e) w)).
  destruct (step_invariants e w) as (A1 & A2 & A3).
  destruct (IH (exec (step e) w)) as (B1 & B2 & B3).
  cbv zeta. repeat split; auto.
Qed.

(** X2: a transport-level connect failure rejects the connect promise with
    the 500-coded error that carries the transport error; the attempt flag
    is up, and neither the stored connection, nor the connected flag, nor
    what was emitted changes. *)
Theorem connect_transport_failure (w : t) (conn : Connection) (e : string) :
  let w' := exec (connectCallback (Some e) conn) (exec connect w) in
  connectPromise w' =
    Rejected (StatusError {| code := 500; message := "Mumble Connection Error";
                             innerError := Some e |}) /\
  _connectCalled w' = true /\
  connection w' = connection w /\ _connected w' = _connected w /\
  emitted w' = emitted w /\
  calls w' = calls w ++ [CallConnect (server (config w))].
Proof.
  cbn. repeat split.
Qed.

(** X3: an error event between the transport callback and the ready signal
    rejects the connect promise with the 500-coded error, without the event's
    error in it (the handler names the callback's own, empty, error), and
    emits nothing; if the ready signal still arrives, the connected flag goes
    up although the promise stays rejected. *)
Theorem connect_error_before_ready (w : t) (conn : Connection) (err : string) :
  errorListeners conn = [] -> initializedListeners conn = 0%nat ->
  let w1 := exec (connectCallback None conn) (exec connect w) in
  let w2 := exec (connectionError err) w1 in
  let w3 := exec connectionInitialized w2 in
  outcome (connectionError err) w1 = Normal tt /\
  connectPromise w2 =
    Rejected (StatusError {| code := 500; message := "Mumble Connection Error";
                             innerError := None |}) /\
  emitted w2 = emitted w /\ _connected w2 = _connected w /\
  _connected w3 = true /\ connectPromise w3 = connectPromise w2.
Proof.
  intros Hl Hi. destruct conn as [u chs els il vl ml]. cbn in Hl, Hi. subst.
  cbn. repeat split.
Qed.

Lemma connect_error_before_ready_witness :
  errorListeners Sample.conn = [] /\ initializedListeners Sample.conn = 0%nat /\
  let w1 := exec (connectCallback None Sample.conn)
              (exec connect (constructor Sample.cfg)) in
  let w2 := exec (connectionError "ECONNRESET") w1 in
  connectPromise w2 =
    Rejected (StatusError {| code := 500; message := "Mumble Connection Error";
                             innerError := None |}) /\
  _connected (exec connectionInitialized w2) = true.
Proof.
  split; [reflexivity|]. split; [reflexivity|].
  destruct (connect_error_before_ready (constructor Sample.cfg) Sample.conn
              "ECONNRESET" eq_refl eq_refl) as (_ & H2 & _ & _ & H5 & _).
  split; [exact H2 | exact H5].
Defined.

(** X4: a handshake that goes through, on a fresh connection object: the
    library was asked to connect and then to authenticate the configured
    user; the promise is resolved, the flag is up, and of the two error
    handlers only [_onError] is still registered. *)
Theorem connect_handshake (w : t) (conn : Connection) :
  errorListeners conn = [] -> initializedListeners conn = 0%nat ->
  let w' := exec connectionInitialized
              (exec (connectCallback None conn) (exec connect w)) in
  _connected w' = true /\ _connectCalled w' = true /\
  connectPromise w' = Resolved tt /\
  calls w' = calls w ++ [CallConnect (server (config w));
                         CallAuthenticate (username (config w))] /\
  emitted w' = emitted w /\
  exists c, connection w' = Some c /\
            errorListeners c = [onErrorListener] /\
            user c = user conn /\ channels c = channels conn /\
            voiceListeners c = S (voiceListeners conn) /\
            messageListeners c = S (messageListeners conn).
Proof.
  intros Hl Hi. destruct conn as [u chs els il vl ml]. cbn in Hl, Hi. subst.
  cbn. rewrite <- app_assoc. repeat split.
  eexists. repeat split.
Qed.

Lemma connect_handshake_witness :
  errorListeners Sample.conn = [] /\ initializedListeners Sample.conn = 0%nat /\
  _connected Sample.online = true /\
  calls Sample.online = [CallConnect "mumble.local"; CallAuthenticate "picom"].
Proof.
  split; [reflexivity|]. split; [reflexivity|].
  destruct (connect_handshake (constructor Sample.cfg) Sample.conn eq_refl eq_refl)
    as (H1 & _ & _ & H4 & _).
  split; [exact H1 | exact H4].
Defined.

(** X5: with a stored connection, [disconnect()] returns normally, lowers
    the flag and asks the library to disconnect, once per call and also when
    the flag was already down; the connection object is kept, and the status
    snapshot taken afterwards reads not connected, with no current channel. *)
Theorem disconnect_with_connection (w : t) (c : Connection) :
  connection w = Some c ->
  disconnect w = (Normal tt, call CallDisconnect (set_connected false w)) /\
  exec disconnect (exec disconnect w) =
    call CallDisconnect (call CallDisconnect (set_connected false w)) /\
  connection (exec disconnect w) = Some c /\
  outcome status (exec disconnect w) =
    Normal {| connected := false; connectionAttempted := _connectCalled w;
              statusChannel := None |}.
Proof.
  intros Hc. unfold disconnect, exec, outcome, bind, modify, gets, status.
  cbn [set_connected connection fst snd]. rewrite Hc. cbn. rewrite Hc. cbn.
  repeat split.
Qed.

Lemma disconnect_with_connection_witness :
  (exists c, connection Sample.online = Some c) /\
  outcome disconnect Sample.online = Normal tt /\
  calls (exec disconnect Sample.online) =
    [CallConnect "mumble.local"; CallAuthenticate "picom"; CallDisconnect].
Proof.
  destruct (connection Sample.online) as [c|] eqn:Hc; [|discriminate Hc].
  destruct (disconnect_with_connection Sample.online c Hc) as (H1 & _).
  split; [eauto|]. unfold outcome, exec. rewrite H1. split; reflexivity.
Defined.

End SessionLifecycle.

Section JoinOutcomes.

Import MumbleClientWrapper.

Lemma eventLoop_idle (channel : Channel) (ws : list t) (j : Join) :
  timers j = 0%nat -> eventLoop channel ws j = j.
Proof.
  intros Ht. induction ws as [|w ws IH]; [reflexivity|].
  cbn [eventLoop]. unfold timerFires. rewrite Ht. exact IH.
Qed.

(** The queued callback, by what it reads of the user's channel. *)
Lemma timerFires_queued (channel : Channel) (w : t) (j : Join) (n : nat) :
  timers j = S n ->
  let j1 := count_poll (incr_retryCount (set_timers n j)) in
  timerFires channel w j =
  match currentChannelId w with
  | Throw e => add_uncaught e j1
  | Normal current =>
      if id channel =? current then settle (resolve channel) j1
      else setTimeout (if retryCount j1 >? RETRY_LIMIT
                       then settle (reject timeoutError) j1 else j1)
  end.
Proof.
  intros Ht j1. unfold timerFires. rewrite Ht.
  unfold whileLoop, bind, modify, gets, when, throw. fold j1.
  destruct (currentChannelId w) as [current|e]; [|reflexivity].
  destruct (id channel =? current); cbn [negb]; [reflexivity|].
  destruct (retryCount j1 >? RETRY_LIMIT); reflexivity.
Qed.

(** The synchronous part of a join whose lookup found [channel]. *)
Lemma joiner_found (fetch : t -> completion (option Channel)) (w : t)
    (channel : Channel) :
  fetch w = Normal (Some channel) ->
  let j1 := count_poll (incr_retryCount (join_request (id channel) newJoin)) in
  _channelJoinerWithChannelFetchFunc fetch w =
  match currentChannelId w with
  | Throw e => settle (reject e) j1
  | Normal current =>
      if id channel =? current then settle (resolve channel) j1
      else setTimeout j1
  end.
Proof.
  intros Hf j1.
  unfold _channelJoinerWithChannelFetchFunc, exec, try_catch. rewrite Hf.
  unfold whileLoop, bind, modify, gets, when, throw. fold j1.
  destruct (currentChannelId w) as [current|e]; [|reflexivity].
  destruct (id channel =? current); reflexivity.
Qed.

Lemma joiner_inv (fetch : t -> completion (option Channel)) (w : t)
    (channel : Channel) :
  fetch w = Normal (Some channel) ->
  join_inv channel (_channelJoinerWithChannelFetchFunc fetch w) /\
  polls (_channelJoinerWithChannelFetchFunc fetch w) = 1%nat.
Proof.
  intros Hf. rewrite (joiner_found _ _ _ Hf). unfold join_inv.
  destruct (currentChannelId w) as [current|e].
  - destruct (id channel =? current); cbn; repeat split; auto;
      try discriminate; try congruence; try (intros H; contradiction).
  - cbn. repeat split; auto; try discriminate; intros H; contradiction.
Qed.

Lemma timerFires_inv (channel : Channel) (w : t) (j : Join) :
  join_inv channel j ->
  join_inv channel (timerFires channel w j) /\
  (polls (timerFires channel w j) <= S (polls j))%nat.
Proof.
  intros (Ht & Hj & Hp & Hr & Hu & Hres).
  destruct (timers j) as [|n] eqn:Htj.
  - unfold timerFires. rewrite Htj. split; [|lia].
    unfold join_inv. rewrite Htj. auto 10.
  - assert (n = 0%nat) by lia. subst n.
    assert (Hun : uncaught j = []).
    { destruct (uncaught j) eqn:E; [reflexivity|].
      assert (S 0 = 0)%nat by (apply Hu; discriminate). discriminate. }
    assert (Hnr : forall c, promise j <> Resolved c).
    { intros c Hc. destruct (Hres c Hc) as [_ H0]. discriminate H0. }
    rewrite (timerFires_queued _ _ _ _ Htj). unfold join_inv.
    destruct (currentChannelId w) as [current|e].
    + destruct (id channel =? current).
      * cbn. rewrite Hr, incr_min, Hj, Hun.
        repeat split; auto; try lia; try (intros H; contradiction).
        destruct (promise j) eqn:Hpj; cbn in H; try discriminate;
          [congruence | exfalso; apply (Hnr a); reflexivity].
      * cbn [retryCount count_poll incr_retryCount set_timers].
        destruct (incr (retryCount j) >? RETRY_LIMIT);
          cbn; rewrite Hr, incr_min, Hj, Hun;
          repeat split; auto; try lia; try (intros H; contradiction);
          try discriminate;
          destruct (promise j) eqn:Hpj; cbn in *; try discriminate;
          exfalso; apply (Hnr a); reflexivity.
    + cbn. rewrite Hr, incr_min, Hj.
      repeat split; auto; try lia;
        destruct (promise j) eqn:Hpj; cbn in *; try discriminate;
        exfalso; apply (Hnr a); reflexivity.
Qed.

Lemma eventLoop_inv (channel : Channel) (ws : list t) (j : Join) :
  join_inv channel j ->
  join_inv channel (eventLoop channel ws j) /\
  (polls (eventLoop channel ws j) <= polls j + List.length ws)%nat.
Proof.
  revert j. induction ws as [|w ws IH]; intros j Hj.
  - cbn. split; [exact Hj | lia].
  - cbn [eventLoop List.length].
    destruct (timerFires_inv channel w j Hj) as [Hj' Hp'].
    destruct (IH _ Hj') as [Hj'' Hp'']. split; [exact Hj''|lia].
Qed.

(** X6: whatever the polls find, a join whose lookup found the channel has
    issued exactly one join request, never has more than one callback queued,
    has polled at least once and at most once per turn, counts its polls in
    the retry counter, stops polling after an uncaught exception, and is
    resolved with the channel that was looked up only. *)
Theorem join_invariants (fetch : t -> completion (option Channel)) (w : t)
    (channel : Channel) (ws : list t) :
  fetch w = Normal (Some channel) ->
  let j := eventLoop channel ws (_channelJoinerWithChannelFetchFunc fetch w) in
  joinRequests j = [id channel] /\
  (timers j <= 1)%nat /\
  (1 <= polls j <= S (List.length ws))%nat /\
  retryCount j = Z.min (Z.of_nat (polls j)) MAX_EXACT /\
  (uncaught j <> [] -> timers j = 0%nat) /\
  (forall c, promise j = Resolved c -> c = channel /\ timers j = 0%nat).
Proof.
  intros Hf j. destruct (joiner_inv fetch w channel Hf) as [Hinv Hp].
  destruct (eventLoop_inv channel ws _ Hinv) as [(H1 & H2 & H3 & H4 & H5 & H6) Hle].
  rewrite Hp in Hle. subst j.
  split; [exact H2|]. split; [exact H1|]. split; [lia|].
  split; [exact H4|]. split; [exact H5 | exact H6].
Qed.

Lemma join_invariants_witness :
  channelByName "Landing Channel" Sample.online = Normal (Some Sample.landing) /\
  let j := eventLoop Sample.landing [Sample.online; Sample.arrived; Sample.online]
             (joinChannelByName "Landing Channel" Sample.online) in
  joinRequests j = [7] /\ (timers j <= 1)%nat /\ (polls j <= 4)%nat.
Proof.
  split; [reflexivity|].
  destruct (join_invariants (channelByName "Landing Channel") Sample.online
              Sample.landing [Sample.online; Sample.arrived; Sample.online]
              eq_refl) as (H1 & H2 & H3 & _).
  split; [exact H1|]. split; [exact H2|]. exact (proj2 H3).
Defined.

Lemma timerFires_settled (channel : Channel) (w : t) (j : Join) :
  promise j <> Pending -> promise (timerFires channel w j) = promise j.
Proof.
  intros Hp. destruct (timers j) as [|n] eqn:Ht.
  - unfold timerFires. rewrite Ht. reflexivity.
  - rewrite (timerFires_queued _ _ _ _ Ht).
    destruct (currentChannelId w) as [current|e]; [|reflexivity].
    destruct (id channel =? current).
    + cbn. destruct (promise j); [contradiction | reflexivity | reflexivity].
    + destruct (_ >? _); cbn; [|reflexivity].
      destruct (promise j); [contradiction | reflexivity | reflexivity].
Qed.

(** X7: a join promise settles once: from the turn it is resolved or
    rejected, no later poll changes it; in particular a join that timed out
    is not resolved when the user shows up in the channel afterwards. *)
Theorem join_settles_once (channel : Channel) (ws : list t) (j : Join) :
  promise j <> Pending -> promise (eventLoop channel ws j) = promise j.
Proof.
  revert j. induction ws as [|w ws IH]; intros j Hp; [reflexivity|].
  cbn [eventLoop]. pose proof (timerFires_settled channel w j Hp) as H.
  rewrite IH; [exact H | rewrite H; exact Hp].
Qed.

Lemma join_settles_once_witness :
  let j := eventLoop Sample.landing (repeat Sample.online 1000)
             (joinChannelByName "Landing Channel" Sample.online) in
  promise j <> Pending /\
  promise (eventLoop Sample.landing [Sample.arrived; Sample.arrived] j)
  = promise j.
Proof.
  intros j.
  assert (Hp : promise j <> Pending) by (vm_compute; discriminate).
  split; [exact Hp|].
  exact (join_settles_once Sample.landing [Sample.arrived; Sample.arrived] j Hp).
Defined.

(** X8: when the polls find the user elsewhere and then, for the first time,
    in the channel, the polling stops there for good; the join is resolved
    with the channel if that poll is one of the first 1001, and stays
    rejected with the timeout otherwise. *)
Theorem join_first_match (fetch : t -> completion (option Channel)) (w : t)
    (channel : Channel) (ws : list t) (w' : t) :
  fetch w = Normal (Some channel) -> Forall (elsewhere channel) (w :: ws) ->
  currentChannelId w' = Normal (id channel) ->
  let j := timerFires channel w'
             (eventLoop channel ws (_channelJoinerWithChannelFetchFunc fetch w)) in
  polls j = S (S (List.length ws)) /\ timers j = 0%nat /\ uncaught j = [] /\
  ((List.length ws < 1000)%nat -> promise j = Resolved channel) /\
  ((1000 <= List.length ws)%nat -> promise j = Rejected timeoutError) /\
  forall ws', eventLoop channel ws' j = j.
Proof.
  intros Hf He Hw j. subst j. rewrite (polling_elsewhere _ _ _ _ Hf He).
  rewrite (timerFires_queued _ _ _ 0); [|reflexivity].
  rewrite Hw, Z.eqb_refl. unfold pollState, RETRY_LIMIT.
  cbn [polls timers uncaught promise settle count_poll incr_retryCount set_timers].
  repeat split.
  - intros Hlt. destruct (Z.of_nat (S (List.length ws)) >? 1000) eqn:Hk;
      [|reflexivity].
    rewrite Z.gtb_ltb in Hk. apply Z.ltb_lt in Hk. lia.
  - intros Hge. destruct (Z.of_nat (S (List.length ws)) >? 1000) eqn:Hk;
      [reflexivity|].
    rewrite Z.gtb_ltb in Hk. apply Z.ltb_ge in Hk. lia.
  - intros ws'. apply eventLoop_idle. reflexivity.
Qed.

Lemma join_first_match_witness :
  channelByName "Landing Channel" Sample.online = Normal (Some Sample.landing) /\
  Forall (elsewhere Sample.landing) (Sample.online :: repeat Sample.online 3) /\
  currentChannelId Sample.arrived = Normal 7 /\
  promise (timerFires Sample.landing Sample.arrived
             (eventLoop Sample.landing (repeat Sample.online 3)
                (joinChannelByName "Landing Channel" Sample.online)))
  = Resolved Sample.landing.
Proof.
  assert (Hf : channelByName "Landing Channel" Sample.online
               = Normal (Some Sample.landing)) by reflexivity.
  assert (He : Forall (elsewhere Sample.landing)
                 (Sample.online :: repeat Sample.online 3))
    by apply (repeat_online_elsewhere 4).
  assert (Hw : currentChannelId Sample.arrived = Normal (id Sample.landing))
    by reflexivity.
  split; [exact Hf|]. split; [exact He|]. split; [exact Hw|].
  destruct (join_first_match _ _ _ _ _ Hf He Hw) as (_ & _ & _ & Hres & _).
  apply Hres. rewrite repeat_length. lia.
Defined.

(** X9: when the user's channel cannot be read at some later poll (no user,
    or no channel on it), the exception is uncaught, the polling stops and
    the promise is left as it was: within the first 1000 polls the join then
    never settles. *)
Theorem join_poll_throws_later (fetch : t -> completion (option Channel)) (w : t)
    (channel : Channel) (ws : list t) (w' : t) (e : error) :
  fetch w = Normal (Some channel) -> Forall (elsewhere channel) (w :: ws) ->
  currentChannelId w' = Throw e ->
  let j := timerFires channel w'
             (eventLoop channel ws (_channelJoinerWithChannelFetchFunc fetch w)) in
  uncaught j = [e] /\ timers j = 0%nat /\
  ((List.length ws < 1000)%nat ->
   forall ws', promise (eventLoop channel ws' j) = Pending) /\
  ((1000 <= List.length ws)%nat -> promise j = Rejected timeoutError).
Proof.
  intros Hf He Hw j. subst j. rewrite (polling_elsewhere _ _ _ _ Hf He).
  rewrite (timerFires_queued _ _ _ 0); [|reflexivity].
  rewrite Hw. unfold pollState, RETRY_LIMIT.
  cbn [polls timers uncaught promise add_uncaught count_poll incr_retryCount
       set_timers app].
  repeat split.
  - intros Hlt ws'. rewrite eventLoop_idle; [|reflexivity].
    cbn [promise]. destruct (Z.of_nat (S (List.length ws)) >? 1000) eqn:Hk;
      [|reflexivity].
    rewrite Z.gtb_ltb in Hk. apply Z.ltb_lt in Hk. lia.
  - intros Hge. destruct (Z.of_nat (S (List.length ws)) >? 1000) eqn:Hk;
      [reflexivity|].
    rewrite Z.gtb_ltb in Hk. apply Z.ltb_ge in Hk. lia.
Qed.

Lemma join_poll_throws_later_witness :
  let gone := on_connection
                (fun c => {| user := None; channels := channels c;
                             errorListeners := errorListeners c;
                             initializedListeners := initializedListeners c;
                             voiceListeners := voiceListeners c;
                             messageListeners := messageListeners c |})
                Sample.online in
  channelByName "Landing Channel" Sample.online = Normal (Some Sample.landing) /\
  Forall (elsewhere Sample.landing) (Sample.online :: repeat Sample.online 2) /\
  currentChannelId gone
  = Throw (TypeError "Cannot read property 'channel' of undefined") /\
  promise (eventLoop Sample.landing [Sample.arrived]
             (timerFires Sample.landing gone
                (eventLoop Sample.landing (repeat Sample.online 2)
                   (joinChannelByName "Landing Channel" Sample.online))))
  = Pending.
Proof.
  intros gone.
  assert (Hf : channelByName "Landing Channel" Sample.online
               = Normal (Some Sample.landing)) by reflexivity.
  assert (He : Forall (elsewhere Sample.landing)
                 (Sample.online :: repeat Sample.online 2))
    by apply (repeat_online_elsewhere 3).
  assert (Hw : currentChannelId gone
               = Throw (TypeError "Cannot read property 'channel' of undefined"))
    by reflexivity.
  split; [exact Hf|]. split; [exact He|]. split; [exact Hw|].
  destruct (join_poll_throws_later _ _ _ _ _ _ Hf He Hw) as (_ & _ & Hpend & _).
  apply Hpend. rewrite repeat_length. lia.
Defined.

(** X10: a join that cannot look the channel up, or cannot read the user's
    channel at its first poll, is rejected with the very exception, and no
    callback is queued.  On a wrapper without a connection object both public
    joins are rejected with a [TypeError] (not with the 404-coded error),
    before any join request. *)
Theorem join_throws_at_once (fetch : t -> completion (option Channel)) (w : t) :
  (forall e, fetch w = Throw e ->
     let j := _channelJoinerWithChannelFetchFunc fetch w in
     promise j = Rejected e /\ joinRequests j = [] /\ polls j = 0%nat /\
     timers j = 0%nat) /\
  (forall channel e, fetch w = Normal (Some channel) ->
     currentChannelId w = Throw e ->
     let j := _channelJoinerWithChannelFetchFunc fetch w in
     promise j = Rejected e /\ joinRequests j = [id channel] /\
     polls j = 1%nat /\ timers j = 0%nat) /\
  (connection w = None ->
   forall n i,
     (exists what, promise (joinChannelByName n w) = Rejected (TypeError what)) /\
     (exists what, promise (joinChannelById i w) = Rejected (TypeError what)) /\
     joinRequests (joinChannelByName n w) = [] /\
     joinRequests (joinChannelById i w) = []).
Proof.
  split; [|split].
  - intros e Hf j. subst j.
    unfold _channelJoinerWithChannelFetchFunc, exec, try_catch. rewrite Hf.
    cbn. auto.
  - intros channel e Hf Hc j. subst j. rewrite (joiner_found _ _ _ Hf), Hc.
    cbn. auto.
  - intros Hc n i.
    unfold joinChannelByName, joinChannelById,
      _channelJoinerWithChannelFetchFunc, channelByName, channelById, exec,
      try_catch. rewrite Hc. cbn. eauto 10.
Qed.

End JoinOutcomes.

Section Buttons.

Import PiComService.

(** A key-up always records its time, whether the handler then fails or
    not. *)
Lemma latch_decision_histories (s : t) (now : Z) :
  _stopTxTimes (exec (_txEvent UP now) s) = unshift_slice2 now (_stopTxTimes s) /\
  (micLatch (state (exec (_txEvent UP now) s)) = true <->
   latch_test (_txTimes s) (unshift_slice2 now (_stopTxTimes s)) = true).
Proof.
  unfold exec. rewrite txEvent_UP_eq.
  destruct (latch_test _ _); cbn.
  - split; [reflexivity | tauto].
  - unfold bind, mic_pause, modify. cbn.
    destruct (mic s); cbn; (split; [reflexivity | split; discriminate]).
Qed.

(** The call handler: flag and indicator first, then the send, whose
    completion is the handler's. *)
Lemma callEvent_eq (b : ButtonState) (s : t) :
  let text := if isDown b then "CALLING" else "END CALLING" in
  _callEvent b s =
  (outcome (W.sendMessageToCurrentChannel text) (mumble s),
   set_mumble (exec (W.sendMessageToCurrentChannel text) (mumble s))
     (setCallLed (isDown b) (set_calling (isDown b) s))).
Proof.
  intros text. unfold _callEvent, bind, modify, on_mumble, outcome, exec.
  fold text. cbn [mumble setCallLed set_calling set_hardware set_state].
  destruct (W.sendMessageToCurrentChannel text (mumble s)) as [[[]|e] w'];
    reflexivity.
Qed.

Lemma hardware_step_histories (e : HardwareEvent) (now : Z) (s : t) :
  (List.length (_txTimes s) <= 2)%nat ->
  (List.length (_stopTxTimes s) <= 2)%nat ->
  let s' := exec (_bindHardwareEvents e now) s in
  (List.length (_txTimes s') <= 2)%nat /\
  (List.length (_stopTxTimes s') <= 2)%nat.
Proof.
  intros Htx Hstop. destruct e; cbn [_bindHardwareEvents].
  - unfold exec. destruct (mic s) as [m|] eqn:Hm.
    + rewrite (txEvent_DOWN_eq _ _ _ Hm). cbn -[unshift_slice2].
      split; [apply unshift_slice2_length | exact Hstop].
    + unfold _txEvent, bind, mic_resume. rewrite Hm. cbn. auto.
  - unfold exec. rewrite txEvent_UP_eq.
    destruct (latch_test _ _).
    + cbn -[unshift_slice2]. split; [lia | apply unshift_slice2_length].
    + unfold bind, mic_pause, modify. cbn -[unshift_slice2].
      destruct (mic s); cbn -[unshift_slice2]; (split; [exact Htx | apply unshift_slice2_length]).
  - unfold exec. rewrite callEvent_eq. cbn. auto.
  - unfold exec. rewrite callEvent_eq. cbn. auto.
Qed.

(** X11: the two histories never hold more than two entries, whatever the
    hardware sends; a key-up is recorded at the head of its history even when
    the handler then fails, a key-down only when the microphone is there. *)
Theorem histories_bounded (events : list (HardwareEvent * Z)) (s : t) :
  (List.length (_txTimes s) <= 2)%nat ->
  (List.length (_stopTxTimes s) <= 2)%nat ->
  let s' := runHardware events s in
  (List.length (_txTimes s') <= 2)%nat /\
  (List.length (_stopTxTimes s') <= 2)%nat /\
  (forall now, exists rest,
     _stopTxTimes (exec (_txEvent UP now) s') = now :: rest) /\
  (forall now m, mic s' = Some m ->
     exists rest, _txTimes (exec (_txEvent DOWN now) s') = now :: rest).
Proof.
  revert s. induction events as [|[e now] events IH]; intros s Htx Hstop.
  - cbn [runHardware fold_left]. split; [exact Htx|]. split; [exact Hstop|]. split.
    + intros now.
      destruct (latch_decision_histories s now) as [H _]. rewrite H.
      unfold unshift_slice2. cbn [firstn]. eauto.
    + intros now m Hm. unfold exec. rewrite (txEvent_DOWN_eq _ _ _ Hm).
      cbn -[unshift_slice2]. unfold unshift_slice2. cbn [firstn]. eauto.
  - cbn [runHardware fold_left fst snd].
    destruct (hardware_step_histories e now s Htx Hstop) as [Htx' Hstop'].
    exact (IH _ Htx' Hstop').
Qed.

Lemma histories_bounded_witness :
  (List.length (_txTimes Sample.ready) <= 2)%nat /\
  (List.length (_stopTxTimes Sample.ready) <= 2)%nat /\
  let s' := runHardware [(txButton_down, 0); (txButton_up, 100);
                         (txButton_down, 9000); (callButton_down, 9100);
                         (txButton_up, 9500); (txButton_down, 9900)]
              Sample.ready in
  (List.length (_txTimes s') <= 2)%nat /\ (List.length (_stopTxTimes s') <= 2)%nat.
Proof.
  assert (H1 : (List.length (_txTimes Sample.ready) <= 2)%nat) by (cbn; lia).
  assert (H2 : (List.length (_stopTxTimes Sample.ready) <= 2)%nat) by (cbn; lia).
  split; [exact H1|]. split; [exact H2|].
  destruct (histories_bounded
              [(txButton_down, 0); (txButton_up, 100); (txButton_down, 9000);
               (callButton_down, 9100); (txButton_up, 9500);
               (txButton_down, 9900)] Sample.ready H1 H2) as (G1 & G2 & _).
  split; [exact G1 | exact G2].
Defined.

(** X12: a press and release that starts from an empty key-down history
    never latches, however short it is: transmission ends at the release.
    The history is empty in a new service and right after the latch was set,
    so the tap that follows a double tap always ends the latched
    transmission. *)
Theorem tap_ends_latched_transmission (s : t) (m : Mic) (t0 td tu : Z) :
  mic s = Some m ->
  let s0 := exec (_txEvent UP t0) s in
  micLatch (state s0) = true \/ _txTimes s0 = [] ->
  let s2 := exec (_txEvent UP tu) (exec (_txEvent DOWN td) s0) in
  _txTimes s0 = [] /\
  micLatch (state s2) = false /\ transmitting (state s2) = false /\
  mic s2 = Some MicPaused /\ talkLed (hardware s2) = false /\
  _txTimes s2 = [td].
Proof.
  intros Hm s0 H0.
  assert (Hnil : _txTimes s0 = []).
  { destruct H0 as [Hl | Hnil]; [|exact Hnil]. subst s0.
    unfold exec in *. rewrite txEvent_UP_eq in *.
    destruct (latch_test _ _); [reflexivity|].
    unfold bind, mic_pause, modify in Hl. cbn in Hl. rewrite Hm in Hl.
    cbn in Hl. discriminate Hl. }
  destruct (txEvent_mic UP t0 s m Hm) as [m0 Hm0]. fold s0 in Hm0.
  clearbody s0. intros s2. subst s2. split; [exact Hnil|].
  assert (Hs1 : exec (_txEvent DOWN td) s0 =
                setTalkLed true
                  (set_transmitting true
                     (set_txTimes [td] (set_mic (Some MicRunning) s0)))).
  { unfold exec. rewrite (txEvent_DOWN_eq _ _ _ Hm0), Hnil. reflexivity. }
  rewrite Hs1. unfold exec. rewrite txEvent_UP_eq.
  cbn [_txTimes _stopTxTimes setTalkLed set_transmitting set_txTimes
       set_hardware set_state set_mic].
  unfold latch_test at 1. cbn [List.length Nat.eqb andb].
  unfold bind, mic_pause, modify. cbn. repeat split.
Qed.

Lemma tap_ends_latched_transmission_witness :
  let s := run [Sample.down 0; Sample.up 100; Sample.down 200] Sample.ready in
  mic s = Some MicRunning /\
  micLatch (state (exec (_txEvent UP 300) s)) = true /\
  let s2 := exec (_txEvent UP 700)
              (exec (_txEvent DOWN 600) (exec (_txEvent UP 300) s)) in
  micLatch (state s2) = false /\ transmitting (state s2) = false.
Proof.
  intros s.
  assert (Hm : mic s = Some MicRunning) by (vm_compute; reflexivity).
  assert (Hl : micLatch (state (exec (_txEvent UP 300) s)) = true)
    by (vm_compute; reflexivity).
  split; [exact Hm|]. split; [exact Hl|].
  destruct (tap_ends_latched_transmission s MicRunning 300 600 700 Hm (or_introl Hl))
    as (_ & H1 & H2 & _).
  split; [exact H1 | exact H2].
Defined.

Lemma no_mic_step (e : HardwareEvent) (now : Z) (s : t) :
  mic s = None -> _txTimes s = [] ->
  let s' := exec (_bindHardwareEvents e now) s in
  mic s' = None /\ _txTimes s' = [] /\
  transmitting (state s') = transmitting (state s) /\
  talkLed (hardware s') = talkLed (hardware s) /\
  (micLatch (state s) = false -> micLatch (state s') = false).
Proof.
  intros Hm Htx. destruct e; cbn [_bindHardwareEvents]; unfold exec.
  - unfold _txEvent, bind, mic_resume. rewrite Hm. cbn. auto.
  - rewrite txEvent_UP_eq. rewrite Htx. unfold latch_test at 1.
    cbn [List.length Nat.eqb andb].
    unfold bind, mic_pause, modify. cbn. rewrite Hm. cbn. auto.
  - rewrite callEvent_eq. cbn. auto.
  - rewrite callEvent_eq. cbn. auto.
Qed.

(** X13: a service whose microphone was never set up (audio disabled, or its
    setup failed) never reports transmission: whatever the hardware sends,
    every key-down and every key-up of the talk button ends in a
    [TypeError], the key-down history stays empty, and the transmit flag, the
    talk indicator and a clear latch stay as they were. *)
Theorem no_microphone_no_transmission (events : list (HardwareEvent * Z)) (s : t) :
  mic s = None -> _txTimes s = [] ->
  let s' := runHardware events s in
  mic s' = None /\ _txTimes s' = [] /\
  transmitting (state s') = transmitting (state s) /\
  talkLed (hardware s') = talkLed (hardware s) /\
  (micLatch (state s) = false -> micLatch (state s') = false) /\
  (forall now b, exists what, outcome (_txEvent b now) s' = Throw (TypeError what)).
Proof.
  revert s. induction events as [|[e now] events IH]; intros s Hm Htx.
  - cbn [runHardware fold_left]. repeat split; auto.
    intros now b. unfold outcome. destruct b.
    + rewrite txEvent_UP_eq. rewrite Htx. unfold latch_test at 1.
      cbn [List.length Nat.eqb andb].
      unfold bind, mic_pause, modify. cbn. rewrite Hm. cbn. eauto.
    + unfold _txEvent, bind, mic_resume. rewrite Hm. cbn. eauto.
  - cbn [runHardware fold_left fst snd].
    destruct (no_mic_step e now s Hm Htx) as (A1 & A2 & A3 & A4 & A5).
    destruct (IH _ A1 A2) as (B1 & B2 & B3 & B4 & B5 & B6).
    fold (runHardware events (exec (_bindHardwareEvents e now) s)).
    repeat split; auto; try congruence.
Qed.

Lemma no_microphone_no_transmission_witness :
  let s := constructor Sample.cfg in
  mic s = None /\ _txTimes s = [] /\
  let s' := runHardware [(txButton_down, 0); (txButton_up, 100);
                         (txButton_down, 200); (txButton_up, 300)] s in
  transmitting (state s') = false /\ micLatch (state s') = false.
Proof.
  intros s. split; [reflexivity|]. split; [reflexivity|].
  destruct (no_microphone_no_transmission
              [(txButton_down, 0); (txButton_up, 100); (txButton_down, 200);
               (txButton_up, 300)] s eq_refl eq_refl) as (_ & _ & H3 & _ & H5 & _).
  split; [exact H3 | exact (H5 eq_refl)].
Defined.

(** X14: the call button sets the calling flag and the call indicator to
    "button is down" before it sends, so also when the send fails; it sends
    "CALLING" on the way down and "END CALLING" on the way up to the user's
    current channel, and fails with the send's [TypeError] when there is no
    connection, user or channel; it never touches the talk state. *)
Theorem call_button (b : ButtonState) (s : t) :
  let s' := exec (_callEvent b) s in
  let text := if isDown b then "CALLING" else "END CALLING" in
  calling (state s') = isDown b /\ callLed (hardware s') = isDown b /\
  (match W.currentChannel (mumble s) with
   | Normal (Some ch) =>
       outcome (_callEvent b) s = Normal tt /\
       W.calls (mumble s') = W.calls (mumble s) ++ [W.CallSendMessage (W.id ch) text]
   | _ =>
       (exists what, outcome (_callEvent b) s = Throw (TypeError what)) /\
       W.calls (mumble s') = W.calls (mumble s)
   end) /\
  transmitting (state s') = transmitting (state s) /\
  micLatch (state s') = micLatch (state s) /\
  talkLed (hardware s') = talkLed (hardware s) /\
  mic s' = mic s /\ _txTimes s' = _txTimes s /\
  _stopTxTimes s' = _stopTxTimes s.
Proof.
  intros s' text. subst s'. unfold exec, outcome. rewrite callEvent_eq. fold text.
  unfold outcome, exec, W.sendMessageToCurrentChannel.
  cbn [fst snd]. split; [reflexivity|]. split; [reflexivity|]. split.
  - cbn [mumble set_mumble].
    destruct (W.currentChannel (mumble s)) as [[ch|]|e] eqn:Hc; cbn.
    + auto.
    + eauto.
    + unfold W.currentChannel in Hc.
      destruct (W.connection (mumble s)) as [c|]; [destruct (W.user c)|];
        inversion Hc; eauto.
  - repeat split.
Qed.

(** X15: the talk button and the call button do not interfere: handling a
    call edge and a talk edge in either order leaves the same service, and
    neither changes how the other completes. *)
Theorem talk_and_call_commute (b b' : ButtonState) (now : Z) (s : t) :
  exec (_callEvent b) (exec (_txEvent b' now) s) =
  exec (_txEvent b' now) (exec (_callEvent b) s) /\
  outcome (_txEvent b' now) (exec (_callEvent b) s) = outcome (_txEvent b' now) s /\
  outcome (_callEvent b) (exec (_txEvent b' now) s) = outcome (_callEvent b) s.
Proof.
  unfold exec, outcome. rewrite !callEvent_eq.
  set (text := if isDown b then "CALLING" else "END CALLING").
  cbn [fst snd]. destruct b'.
  - rewrite !txEvent_UP_eq.
    cbn [_txTimes _stopTxTimes set_mumble setCallLed set_calling set_hardware
         set_state].
    destruct (latch_test _ _).
    + cbn. auto.
    + unfold bind, mic_pause, modify. cbn. destruct (mic s); cbn; auto.
  - unfold _txEvent, bind, mic_resume, modify. cbn.
    destruct (mic s); cbn; auto.
Qed.

End Buttons.

Section Health.

Import PiComService.

(** X16: when the session status can be read, the health check lights the
    error flasher exactly when the audio setup failed or a connection was
    attempted and the session is not connected; the report is NORMAL exactly
    when audio is configured, the hardware is set up and the session is
    connected, which is also exactly when it carries no message; there are
    never more than three messages; and a second check changes nothing. *)
Theorem error_flasher_lit (s : t) (st : W.Status) :
  outcome W.status (mumble s) = Normal st ->
  let s' := exec _healthCheckCallback s in
  (errorFlasher (hardware s') = true <->
   _audioStatus s = AUDIO_SETUP_ERROR \/
   (W._connected (mumble s) = false /\ W._connectCalled (mumble s) = true)) /\
  (exists r, outcome _errorState s = Normal r /\
     (overall r = STATUS_NORMAL <->
      _audioStatus s = AUDIO_CONFIGURED /\ setupDone (hardware s) = true /\
      W._connected (mumble s) = true) /\
     (messages r = [] <-> overall r = STATUS_NORMAL) /\
     (List.length (messages r) <= 3)%nat) /\
  exec _healthCheckCallback s' = s'.
Proof.
  destruct s as [w hw sta tx stop audio mc].
  destruct w as [conn called cfg c pr cl em subs].
  destruct hw as [done tl cl' ef].
  assert (Hc : conn = true \/ conn = false) by (destruct conn; auto).
  destruct Hc as [-> | ->].
  - destruct c as [[[[ch]|] chs els il vl ml]|]; cbn; intros H;
      try discriminate H;
      destruct audio, done; cbn;
        (split; [intuition (try discriminate; auto)|]);
        (split; [eexists; split; [reflexivity|]; cbn;
                 intuition (try discriminate; auto; try lia)
                | reflexivity]).
  - cbn. intros _. destruct audio, done, called; cbn;
      (split; [intuition (try discriminate; auto)|]);
      (split; [eexists; split; [reflexivity|]; cbn;
               intuition (try discriminate; auto; try lia)
              | reflexivity]).
Qed.

Lemma error_flasher_lit_witness :
  let s := set_mumble (exec W.disconnect Sample.online) Sample.ready in
  (exists st, outcome W.status (mumble s) = Normal st) /\
  errorFlasher (hardware (exec _healthCheckCallback s)) = true.
Proof.
  intros s.
  assert (Hst : outcome W.status (mumble s)
                = Normal {| W.connected := false; W.connectionAttempted := true;
                            W.statusChannel := None |}) by reflexivity.
  split; [eauto|].
  destruct (error_flasher_lit s _ Hst) as (Hlit & _).
  apply Hlit. right. split; reflexivity.
Defined.

(** X17: [_disconnectMumble] marks the audio as not set up and lowers the
    connected flag before anything can fail; it fails, with the [TypeError]
    of [disconnect], exactly when the wrapper holds no connection.  The
    health report read afterwards starts with the audio warning and is ERROR
    when a connection was ever attempted, WARNING otherwise. *)
Theorem disconnectMumble_effect (s : t) :
  let s' := exec _disconnectMumble s in
  _audioStatus s' = AUDIO_NOT_SETUP /\
  W._connected (mumble s') = false /\
  (W.connection (mumble s) = None <->
   exists what, outcome _disconnectMumble s = Throw (TypeError what)) /\
  exists r rest,
    outcome _errorState s' = Normal r /\
    messages r = {| message := "WARNING - Audio Not Setup"; status := STATUS_WARN |}
                 :: rest /\
    overall r = if W._connectCalled (mumble s) then STATUS_ERROR else STATUS_WARN.
Proof.
  destruct s as [w hw sta tx stop audio mc].
  destruct w as [conn called cfg c pr cl em subs].
  destruct hw as [done tl cl' ef].
  unfold _disconnectMumble, exec, outcome, bind, modify, on_mumble, W.disconnect,
    gets, throw.
  destruct c as [c|]; cbn -[_errorState].
  - split; [reflexivity|]. split; [reflexivity|]. split.
    + split; [discriminate | intros [what H]; discriminate H].
    + destruct done, called; cbn; eexists; eexists;
        (split; [reflexivity|]); split; reflexivity.
  - split; [reflexivity|]. split; [reflexivity|]. split.
    + split; [eauto | reflexivity].
    + destruct done, called; cbn; eexists; eexists;
        (split; [reflexivity|]); split; reflexivity.
Qed.



(** X19: reconfiguring a service whose wrapper holds no connection (the
    transport callback never delivered one) fails with the [TypeError] of
    [disconnect] before the wrapper is replaced: the old wrapper stays, with
    its old configuration and the flag down, no connect is attempted for the
    new configuration, and audio is marked as not set up. *)
Theorem reconfigure_without_connection (newConfig : W.Config) (s : t) :
  W.connection (mumble s) = None ->
  let s' := exec (reconfigureMumbleAndReconnect newConfig) s in
  outcome (reconfigureMumbleAndReconnect newConfig) s =
    Throw (TypeError "Cannot read property 'disconnect' of undefined") /\
  mumble s' = W.set_connected false (mumble s) /\
  W.config (mumble s') = W.config (mumble s) /\
  W.calls (mumble s') = W.calls (mumble s) /\
  _audioStatus s' = AUDIO_NOT_SETUP.
Proof.
  intros Hc. destruct s as [w hw sta tx stop audio mc]. cbn [mumble] in Hc.
  unfold reconfigureMumbleAndReconnect, _disconnectMumble, exec, outcome, bind,
    modify, on_mumble, W.disconnect, gets, throw.
  cbn. rewrite Hc. cbn. repeat split.
Qed.

Lemma reconfigure_without_connection_witness :
  let s := set_mumble (exec (W.connectCallback (Some "ECONNREFUSED") Sample.conn)
                         (exec W.connect (W.constructor Sample.cfg)))
             Sample.ready in
  let newConfig := {| W.server := "backup.local"; W.port := 64738;
                      W.username := "picom"; W.key := None; W.cert := None |} in
  W.connection (mumble s) = None /\
  W.config (mumble (exec (reconfigureMumbleAndReconnect newConfig) s)) = Sample.cfg.
Proof.
  intros s newConfig.
  assert (Hc : W.connection (mumble s) = None) by reflexivity.
  split; [exact Hc|].
  destruct (reconfigure_without_connection newConfig s Hc) as (_ & _ & H3 & _).
  rewrite H3. reflexivity.
Defined.

End Health.

Section Taps.

Import PiComService.

Lemma latch_test_two (d0 d1 u0 u1 : Z) :
  latch_test [d0; d1] [u0; u1] = true <->
  u1 - d1 <= 500 /\ u0 - d0 <= 500 /\ d0 - d1 <= 750.
Proof.
  unfold latch_test. cbn [List.length Nat.eqb andb index nth_error sub le].
  rewrite LATCH_GAP_MS_value. unfold LATCH_TIME_MS.
  rewrite !andb_true_iff, !Z.leb_le. tauto.
Qed.

(** A press at [d] and its release at [u], on a service with a microphone. *)
Lemma press_release (x : t) (mx : Mic) (d u : Z) :
  mic x = Some mx ->
  let x' := run [Sample.down d; Sample.up u] x in
  let tx := unshift_slice2 d (_txTimes x) in
  let stop := unshift_slice2 u (_stopTxTimes x) in
  _txTimes x' = (if latch_test tx stop then [] else tx) /\
  _stopTxTimes x' = stop /\
  micLatch (state x') = latch_test tx stop /\
  transmitting (state x') = latch_test tx stop /\
  talkLed (hardware x') = latch_test tx stop /\
  mic x' = Some (if latch_test tx stop then MicRunning else MicPaused).
Proof.
  intros Hm x' tx stop. subst x'.
  rewrite !run_cons. change (run [] ?y) with y.
  change (handle (Sample.down d)) with (_txEvent DOWN d).
  change (handle (Sample.up u)) with (_txEvent UP u).
  assert (Hx1 : exec (_txEvent DOWN d) x =
                setTalkLed true
                  (set_transmitting true
                     (set_txTimes tx (set_mic (Some MicRunning) x)))).
  { unfold exec. rewrite (txEvent_DOWN_eq _ _ _ Hm). reflexivity. }
  rewrite Hx1. unfold exec. rewrite txEvent_UP_eq.
  cbn [_txTimes _stopTxTimes setTalkLed set_transmitting set_txTimes
       set_hardware set_state set_mic].
  fold stop. destruct (latch_test tx stop).
  - cbn. repeat split.
  - unfold bind, mic_pause, modify. cbn. repeat split.
Qed.

(** X20: two presses from an empty key-down history, pressed at [d1] and
    [d0] and released at [u1] and [u0]: the first release always ends the
    transmission; the second sets the latch, and leaves the service
    transmitting with the capture running and the indicator lit, exactly when
    both holds lasted at most 500ms and the presses are at most 750ms apart. *)
Theorem double_tap (s : t) (m : Mic) (d1 u1 d0 u0 : Z) :
  mic s = Some m -> _txTimes s = [] ->
  let s1 := run [Sample.down d1; Sample.up u1] s in
  let s2 := run [Sample.down d0; Sample.up u0] s1 in
  (micLatch (state s1) = false /\ transmitting (state s1) = false /\
   mic s1 = Some MicPaused) /\
  (micLatch (state s2) = true <->
   u1 - d1 <= 500 /\ u0 - d0 <= 500 /\ d0 - d1 <= 750) /\
  transmitting (state s2) = micLatch (state s2) /\
  talkLed (hardware s2) = micLatch (state s2) /\
  mic s2 = Some (if micLatch (state s2) then MicRunning else MicPaused).
Proof.
  intros Hm Htx s1 s2.
  destruct (press_release s m d1 u1 Hm) as (A1 & A2 & A3 & A4 & A5 & A6).
  fold s1 in A1, A2, A3, A4, A5, A6. rewrite Htx in *.
  assert (Hno : latch_test (unshift_slice2 d1 [])
                  (unshift_slice2 u1 (_stopTxTimes s)) = false) by reflexivity.
  rewrite Hno in *.
  destruct (press_release s1 MicPaused d0 u0 A6) as (B1 & B2 & B3 & B4 & B5 & B6).
  fold s2 in B1, B2, B3, B4, B5, B6. rewrite A1, A2 in *.
  assert (Hstop : unshift_slice2 u0 (unshift_slice2 u1 (_stopTxTimes s)) = [u0; u1]).
  { unfold unshift_slice2. cbn. destruct (_stopTxTimes s); reflexivity. }
  rewrite Hstop in *.
  change (unshift_slice2 d0 (unshift_slice2 d1 [])) with [d0; d1] in *.
  split; [auto|]. split.
  - rewrite B3. apply latch_test_two.
  - rewrite B3, B4, B5. auto.
Qed.

Lemma double_tap_witness :
  mic Sample.ready = Some MicPaused /\ _txTimes Sample.ready = [] /\
  micLatch (state (run [Sample.down 1000; Sample.up 1500]
                     (run [Sample.down 250; Sample.up 750] Sample.ready))) = true.
Proof.
  split; [reflexivity|]. split; [reflexivity|].
  destruct (double_tap Sample.ready MicPaused 250 750 1000 1500 eq_refl eq_refl)
    as (_ & Hiff & _).
  apply Hiff. lia.
Defined.

(** X21: an unlatch that ended the latched transmission cannot be repeated:
    the second call is refused with the 400-coded error and changes nothing. *)
Theorem unlatch_twice (s : t) (m : Mic) (t1 t2 : Z) :
  mic s = Some m -> micLatch (state s) = true ->
  List.length (_txTimes s) <> 2%nat ->
  let s1 := exec (unLatchMic t1) s in
  outcome (unLatchMic t1) s = Normal tt /\
  transmitting (state s1) = false /\
  unLatchMic t2 s1 = (Throw notLatchedError, s1).
Proof.
  intros Hm Hl Hlen.
  assert (Heq : unLatchMic t1 s = _txEvent UP t1 s).
  { unfold unLatchMic, bind, gets. rewrite Hl. reflexivity. }
  assert (Ht : latch_test (_txTimes s) (unshift_slice2 t1 (_stopTxTimes s)) = false).
  { destruct (latch_test _ _) eqn:E; [|reflexivity].
    apply latch_test_length in E. contradiction. }
  assert (Hu : unLatchMic t1 s =
               (Normal tt,
                setTalkLed false
                  (set_transmitting false
                     (set_mic (Some MicPaused)
                        (set_micLatch false
                           (set_micLatch false
                              (set_stopTxTimes
                                 (unshift_slice2 t1 (_stopTxTimes s)) s))))))).
  { rewrite Heq, txEvent_UP_eq, Ht. unfold bind, mic_pause, modify.
    cbn [mic set_micLatch set_stopTxTimes set_state]. rewrite Hm. reflexivity. }
  intros s1. subst s1. unfold exec, outcome. rewrite Hu. cbn [fst snd].
  split; [reflexivity|]. split; [reflexivity|].
  unfold unLatchMic, bind, gets. reflexivity.
Qed.

Lemma unlatch_twice_witness :
  let s := run [Sample.down 0; Sample.up 100; Sample.down 200; Sample.up 300]
               Sample.ready in
  mic s = Some MicRunning /\ micLatch (state s) = true /\
  List.length (_txTimes s) <> 2%nat /\
  outcome (unLatchMic 900) (exec (unLatchMic 800) s) = Throw notLatchedError.
Proof.
  intros s.
  assert (Hm : mic s = Some MicRunning) by (vm_compute; reflexivity).
  assert (Hl : micLatch (state s) = true) by (vm_compute; reflexivity).
  assert (Hn : List.length (_txTimes s) <> 2%nat) by (vm_compute; discriminate).
  split; [exact Hm|]. split; [exact Hl|]. split; [exact Hn|].
  destruct (unlatch_twice s MicRunning 800 900 Hm Hl Hn) as (_ & _ & H).
  unfold outcome. rewrite H. reflexivity.
Defined.

End Taps.
